(** * cookidoo-api: the authenticated request lifecycle of [Cookidoo]

    A shallow embedding of [src/cookidoo_api/cookidoo.py].  The client object
    and its surroundings (clock, logger, the requests put on the wire) form an
    explicit [World]; every coroutine of the class is a function in a state
    and exception monad over that world. *)

From stdpp Require Import base strings gmap list.
From Stdlib Require Import ZArith Lia.

Local Open Scope Z_scope.
Set Warnings "-register-all".

(** ** Python values *)

(** A decoded JSON document, which is also the run-time shape of the
    [TypedDict] records of [cookidoo_api.types].  [JObj] lists the items of a
    [dict] in insertion order.  Numbers are the integers. *)
Inductive json : Type :=
| JNull
| JBool (b : bool)
| JInt (n : Z)
| JStr (s : string)
| JArr (items : list json)
| JObj (members : list (string * json)).

Inductive client_error : Type :=
| ClientResponseError (code : Z)
| ContentTypeError
| ClientConnectionError.

(** The exceptions that travel through the class: the ones of the standard
    library and of aiohttp, and the four of [cookidoo_api.exceptions].  The
    second argument of a request or parse exception is its [__cause__]
    ([raise ... from e]). *)
Inductive exn : Type :=
| TimeoutError
| ClientError (k : client_error)
| JSONDecodeError
| KeyError (key : string)
| TypeError
| AttributeError
| ValueError
| CookidooConfigException (msg : string)
| CookidooAuthException (msg : string)
| CookidooRequestException (msg : string) (cause : exn)
| CookidooParseException (msg : string) (cause : exn).

Inductive pyres (A : Type) : Type :=
| Ok (a : A)
| Raise (e : exn).
Arguments Ok {A} a.
Arguments Raise {A} e.

Definition pyres_bind {A B} (f : A → pyres B) (x : pyres A) : pyres B :=
  match x with
  | Ok a => f a
  | Raise e => Raise e
  end.

#[global] Instance pyres_mret : MRet pyres := λ A, @Ok A.
#[global] Instance pyres_mbind : MBind pyres := λ A B, @pyres_bind A B.

(** [d[key]] on a dict. *)
Fixpoint dict_get (key : string) (d : list (string * json)) : option json :=
  match d with
  | [] => None
  | (k, v) :: d' => if decide (k = key) then Some v else dict_get key d'
  end.

Definition dict_getitem (d : list (string * json)) (key : string) : pyres json :=
  match dict_get key d with
  | Some v => Ok v
  | None => Raise (KeyError key)
  end.

(** [v[key]] for a string key: only a dict can be subscripted that way. *)
Definition py_getitem (v : json) (key : string) : pyres json :=
  match v with
  | JObj d => dict_getitem d key
  | _ => Raise TypeError
  end.

(** [v.items()]. *)
Definition py_items (v : json) : pyres (list (string * json)) :=
  match v with
  | JObj d => Ok d
  | _ => Raise AttributeError
  end.

Fixpoint chars (s : string) : list json :=
  match s with
  | EmptyString => []
  | String c s' => JStr (String c EmptyString) :: chars s'
  end.

(** [for x in v]: a list yields its elements, a dict its keys, a str its
    characters. *)
Definition py_iter (v : json) : pyres (list json) :=
  match v with
  | JArr l => Ok l
  | JObj d => Ok (map (λ kv, JStr kv.1) d)
  | JStr s => Ok (chars s)
  | _ => Raise TypeError
  end.

(** Truth value of an object. *)
Definition truthy (v : json) : bool :=
  match v with
  | JNull => false
  | JBool b => b
  | JInt n => negb (n =? 0)
  | JStr s => negb (bool_decide (s = EmptyString))
  | JArr l => negb (bool_decide (l = []))
  | JObj d => match d with [] => false | _ => true end
  end.

(** The dict comprehension
    [{key: val for key, val in d.items() if key in T.__annotations__}]. *)
Definition project (annotations : list string) (d : list (string * json))
  : list (string * json) :=
  filter (λ kv, kv.1 ∈ annotations) d.

(** [[f(x) for x in l]] where [f] may raise. *)
Fixpoint py_map {A B} (f : A → pyres B) (l : list A) : pyres (list B) :=
  match l with
  | [] => Ok []
  | x :: l' => y ← f x; ys ← py_map f l'; Ok (y :: ys)
  end.

(** [str.lower()] and [str.capitalize()].  A string of the model is a
    sequence of bytes, and the two functions are Python's on ASCII text:
    the letters A-Z and a-z are mapped, every other character is kept.
    (On text with other cased code points Python maps those too; statements
    that depend on the case mapping say [ascii_only].) *)
Definition ascii_lower (c : Ascii.ascii) : Ascii.ascii :=
  let n := Ascii.nat_of_ascii c in
  if ((65 <=? n) && (n <=? 90))%nat then Ascii.ascii_of_nat (n + 32) else c.

Definition ascii_upper (c : Ascii.ascii) : Ascii.ascii :=
  let n := Ascii.nat_of_ascii c in
  if ((97 <=? n) && (n <=? 122))%nat then Ascii.ascii_of_nat (n - 32) else c.

Fixpoint str_lower (s : string) : string :=
  match s with
  | EmptyString => EmptyString
  | String c s' => String (ascii_lower c) (str_lower s')
  end.

Definition str_capitalize (s : string) : string :=
  match s with
  | EmptyString => EmptyString
  | String c s' => String (ascii_upper c) (str_lower s')
  end.

(** [v.lower()]: an attribute of str only. *)
Definition py_lower (v : json) : pyres string :=
  match v with
  | JStr s => Ok (str_lower s)
  | _ => Raise AttributeError
  end.

(** ** HTTP *)

Inductive http_method : Type := GET | POST | DELETE.

(** The URL constants of [cookidoo_api.const], by name. *)
Inductive endpoint : Type :=
| TOKEN_ENDPOINT
| COMMUNITY_PROFILE_PATH
| SUBSCRIPTIONS_PATH
| RECIPE_PATH (id : string)
| SHOPPING_LIST_RECIPES_PATH
| INGREDIENT_ITEMS_PATH
| ADD_INGREDIENT_ITEMS_FOR_RECIPES_PATH
| REMOVE_INGREDIENT_ITEMS_FOR_RECIPES_PATH
| EDIT_OWNERSHIP_INGREDIENT_ITEMS_PATH
| ADDITIONAL_ITEMS_PATH
| ADD_ADDITIONAL_ITEMS_PATH
| EDIT_ADDITIONAL_ITEMS_PATH
| EDIT_OWNERSHIP_ADDITIONAL_ITEMS_PATH
| REMOVE_ADDITIONAL_ITEMS_PATH.

Inductive payload : Type :=
| NoBody
| FormData (fields : list (string * json))
| JsonBody (j : json).

Record request : Type := mkRequest {
  req_method : http_method;
  req_url : endpoint;
  req_headers : gmap string string;
  req_payload : payload }.

(** What [await r.json()] does on a response. *)
Inductive json_outcome : Type :=
| JsonValue (v : json)
| JsonDecodeFailure
| JsonContentTypeFailure.

Record ClientResponse : Type := mkResponse {
  status : Z;
  text : string;
  body_json : json_outcome }.

(** What entering [async with self._session.post(...) as r] does. *)
Inductive outcome : Type :=
| RaisesTimeout
| RaisesClientError (k : client_error)
| Responds (r : ClientResponse).

Definition HTTPStatus_UNAUTHORIZED : Z := 401.
Definition HTTPStatus_BAD_REQUEST : Z := 400.

Definition response_json (r : ClientResponse) : pyres json :=
  match body_json r with
  | JsonValue v => Ok v
  | JsonDecodeFailure => Raise JSONDecodeError
  | JsonContentTypeFailure => Raise (ClientError ContentTypeError)
  end.

(** aiohttp's [ClientResponse.raise_for_status]: raises
    [ClientResponseError] unless [ok], and [ok] is [400 > status]. *)
Definition raise_for_status (r : ClientResponse) : pyres unit :=
  if decide (400 ≤ status r)
  then Raise (ClientError (ClientResponseError (status r)))
  else Ok ().

(** ** The client and its world *)

Inductive log_arg : Type :=
| ArgUrl (u : endpoint)
| ArgStatus (s : Z)
| ArgText (t : string)
| ArgValue (v : json)
| ArgTraceback (e : exn).

Inductive log_record : Type :=
| LogDebug (fmt : string) (args : list log_arg).

Record CookidooConfig : Type := mkConfig {
  email : string;
  password : string }.

(** The attributes of a [Cookidoo] instance, then what lies around it: the
    clock read by [time.time()], the records handed to [_LOGGER] and the
    requests given to the session, oldest first. *)
Record World : Type := mkWorld {
  _session : request → outcome;
  _cfg : CookidooConfig;
  _token_headers : gmap string string;
  _api_headers : gmap string string;
  __expires_in : option Z;
  _auth_data : option (list (string * json));
  clock : Z;
  log : list log_record;
  wire : list request }.

Definition set_session (f : request → outcome) (w : World) : World :=
  mkWorld f (_cfg w) (_token_headers w) (_api_headers w) (__expires_in w)
          (_auth_data w) (clock w) (log w) (wire w).

Definition set_api_headers (h : gmap string string) (w : World) : World :=
  mkWorld (_session w) (_cfg w) (_token_headers w) h (__expires_in w)
          (_auth_data w) (clock w) (log w) (wire w).

Definition set_expires_in (e : option Z) (w : World) : World :=
  mkWorld (_session w) (_cfg w) (_token_headers w) (_api_headers w) e
          (_auth_data w) (clock w) (log w) (wire w).

Definition set_auth_data (d : option (list (string * json))) (w : World) : World :=
  mkWorld (_session w) (_cfg w) (_token_headers w) (_api_headers w)
          (__expires_in w) d (clock w) (log w) (wire w).

Definition set_clock (t : Z) (w : World) : World :=
  mkWorld (_session w) (_cfg w) (_token_headers w) (_api_headers w)
          (__expires_in w) (_auth_data w) t (log w) (wire w).

Definition set_log (l : list log_record) (w : World) : World :=
  mkWorld (_session w) (_cfg w) (_token_headers w) (_api_headers w)
          (__expires_in w) (_auth_data w) (clock w) l (wire w).

Definition set_wire (q : list request) (w : World) : World :=
  mkWorld (_session w) (_cfg w) (_token_headers w) (_api_headers w)
          (__expires_in w) (_auth_data w) (clock w) (log w) q.

(** ** The monad of the coroutines *)

Definition M (A : Type) : Type := World → pyres A * World.

Definition M_ret {A} (a : A) : M A := λ w, (Ok a, w).

Definition M_bind {A B} (f : A → M B) (m : M A) : M B :=
  λ w, match m w with
       | (Ok a, w') => f a w'
       | (Raise e, w') => (Raise e, w')
       end.

#[global] Instance M_mret : MRet M := λ A, @M_ret A.
#[global] Instance M_mbind : MBind M := λ A B, @M_bind A B.

Definition raise {A} (e : exn) : M A := λ w, (Raise e, w).

Definition lift {A} (x : pyres A) : M A := λ w, (x, w).

Definition get {A} (f : World → A) : M A := λ w, (Ok (f w), w).

Definition modify (f : World → World) : M unit := λ w, (Ok (), f w).

(** [try: body / except ...: handler / else: orelse].  [handler e] is [None]
    when no except clause matches [e]. *)
Definition try_except_else {A B} (body : M A) (handler : exn → option (M B))
    (orelse : A → M B) : M B :=
  λ w, match body w with
       | (Ok a, w') => orelse a w'
       | (Raise e, w') =>
           match handler e with
           | Some h => h w'
           | None => (Raise e, w')
           end
       end.

Definition try_except {A} (body : M A) (handler : exn → option (M A)) : M A :=
  try_except_else body handler M_ret.

(** [_LOGGER.debug(fmt, *args)]. *)
Definition debug (fmt : string) (args : list log_arg) : M unit :=
  modify (λ w, set_log (log w ++ [LogDebug fmt args]) w).

(** [async with self._session.<method>(url, headers=..., ...) as r]. *)
Definition session_request (m : http_method) (u : endpoint)
    (hdrs : World → gmap string string) (p : payload) : M ClientResponse :=
  λ w, let req := mkRequest m u (hdrs w) p in
       let w' := set_wire (wire w ++ [req]) w in
       match _session w req with
       | RaisesTimeout => (Raise TimeoutError, w')
       | RaisesClientError k => (Raise (ClientError k), w')
       | Responds r => (Ok r, w')
       end.

(** ** Authentication *)

(** Modelled from the spec: [CookidooAuthResponse.__annotations__], the
    declared fields of the token grant record of [cookidoo_api.types]. *)
Definition CookidooAuthResponse_annotations : list string :=
  ["access_token"; "refresh_token"; "token_type"; "expires_in"].

(** Modelled from the spec: [AUTHORIZATION_HEADER.format(type=...,
    access_token=...)], the template of [cookidoo_api.const]: the type, a
    space, the token. *)
Definition AUTHORIZATION_HEADER_format (type access_token : string) : string :=
  type +:+ " " +:+ access_token.

Section Cookidoo.

(** Python's [str()] of a value that is not a str, and [int()] of a str. *)
Variable py_str : json → string.
Variable int_of_str : string → option Z.

(** A constant of [cookidoo_api.const]. *)
Variable COOKIDOO_CLIENT_ID : string.

(** The declared fields of the other two projected records. *)
Variable CookidooUserInfo_annotations : list string.
Variable CookidooSubscription_annotations : list string.

(** The converters of [cookidoo_api.helpers]. *)
Variable cookidoo_recipe_details_from_json : json → pyres json.
Variable cookidoo_recipe_from_json : json → pyres json.
Variable cookidoo_ingredient_item_from_json : json → pyres json.
Variable cookidoo_additional_item_from_json : json → pyres json.

(** A replacement field of [str.format]. *)
Definition format_field (v : json) : string :=
  match v with
  | JStr s => s
  | _ => py_str v
  end.

(** [int(v)]. *)
Definition py_int (v : json) : pyres Z :=
  match v with
  | JInt n => Ok n
  | JBool b => Ok (if b then 1 else 0)
  | JStr s => match int_of_str s with Some n => Ok n | None => Raise ValueError end
  | _ => Raise TypeError
  end.

(** The [expires_in] property.  Before the first assignment the private
    attribute does not exist. *)
Definition expires_in : M Z :=
  λ w, match __expires_in w with
       | Some e => (Ok (Z.max 0 (e - clock w)), w)
       | None => (Raise AttributeError, w)
       end.

Definition expires_in_setter (v : json) : M unit :=
  now ← get clock;
  n ← lift (py_int v);
  modify (set_expires_in (Some (now + n))).

(** The [auth_data] property: a copy of the held dict, or [None]. *)
Definition auth_data : M (option (list (string * json))) :=
  λ w, (Ok (match _auth_data w with
            | Some d => if truthy (JObj d) then Some d else None
            | None => None
            end), w).

Definition auth_data_setter (d : list (string * json)) : M unit :=
  token_type ← lift (dict_getitem d "token_type");
  lowered ← lift (py_lower token_type);
  access_token ← lift (dict_getitem d "access_token");
  modify (λ w, set_api_headers
                 (<["AUTHORIZATION" :=
                      AUTHORIZATION_HEADER_format (str_capitalize lowered)
                                                  (format_field access_token)]>
                    (_api_headers w)) w);;
  modify (set_auth_data (Some d));;
  e ← lift (dict_getitem d "expires_in");
  expires_in_setter e.

(** The block run when [r.status == HTTPStatus.UNAUTHORIZED]. *)
Definition unauthorized (r : ClientResponse)
    (parse_fmt fmt msg : string) : M unit :=
  if decide (status r = HTTPStatus_UNAUTHORIZED) then
    try_except_else (lift (response_json r))
      (λ e, match e with
            | JSONDecodeError | ClientError _ =>
                Some (debug parse_fmt [ArgTraceback e])
            | _ => None
            end)
      (λ errmsg,
         d ← lift (py_getitem errmsg "error_description");
         debug fmt [ArgValue d]);;
    raise (CookidooAuthException msg)
  else mret ().

(** The two outer except clauses of every method. *)
Definition except_transport {A} (fmt_timeout msg_timeout fmt_client msg_client : string)
    (body : M A) : M A :=
  try_except body
    (λ e, match e with
          | TimeoutError =>
              Some (debug fmt_timeout [ArgTraceback e];;
                    raise (CookidooRequestException msg_timeout e))
          | ClientError _ =>
              Some (debug fmt_client [ArgTraceback e];;
                    raise (CookidooRequestException msg_client e))
          | _ => None
          end).

Definition _request_access_token (form_data : list (string * json))
  : M (list (string * json)) :=
  data ← except_transport
    "Exception: Cannot request access token:\n %s"
    "Authentication failed due to connection timeout."
    "Exception: Cannot request access token:\n %s"
    "Authentication failed due to request exception."
    (r ← session_request POST TOKEN_ENDPOINT _token_headers (FormData form_data);
     debug "Response from %s [%s]: %s"
       [ArgUrl TOKEN_ENDPOINT; ArgStatus (status r);
        ArgText (if decide (status r ≠ 200) then text r else EmptyString)];;
     unauthorized r
       "Exception: Cannot parse access token request response:\n %s"
       "Exception: Cannot request access token: %s"
       "Access token request failed due to authorization failure, please check your email and password or refresh token.";;
     (if decide (status r = HTTPStatus_BAD_REQUEST) then
        debug "Exception: Cannot request access token: %s" [ArgText (text r)];;
        raise (CookidooAuthException
                 "Access token request failed due to bad request, please check your email or refresh token.")
      else mret ());;
     lift (raise_for_status r);;
     try_except
       (j ← lift (response_json r);
          items ← lift (py_items j);
          mret (project CookidooAuthResponse_annotations items))
         (λ e, match e with
               | JSONDecodeError =>
                   Some (debug "Exception: Cannot request access token:\n %s"
                           [ArgTraceback e];;
                         raise (CookidooParseException
                                  "Cannot parse access token request response." e))
               | _ => None
               end));
  auth_data_setter data;;
  mret data.

Definition refresh_token : M (list (string * json)) :=
  held ← get _auth_data;
  match held with
  | Some d =>
        if truthy (JObj d) then
          tok ← lift (dict_getitem d "refresh_token");
          _request_access_token
            [("grant_type", JStr "refresh_token");
             ("refresh_token", tok);
             ("client_id", JStr COOKIDOO_CLIENT_ID)]
        else raise (CookidooConfigException "No auth data available, please log in first")
  | None => raise (CookidooConfigException "No auth data available, please log in first")
  end.

Definition login : M (list (string * json)) :=
  cfg ← get _cfg;
  _request_access_token
    [("grant_type", JStr "password");
     ("username", JStr (email cfg));
     ("password", JStr (password cfg))].

(** The first statement under every [async with] of the API methods. *)
Definition log_response (u : endpoint) (r : ClientResponse) : M unit :=
  debug "Response from %s [%s]: %s"
    [ArgUrl u; ArgStatus (status r); ArgText (text r)].

(** The inner [except (JSONDecodeError, KeyError)] clause. *)
Definition except_parse {A} (fmt msg : string) (body : M A) : M A :=
  try_except body
    (λ e, match e with
            | JSONDecodeError | KeyError _ =>
                Some (debug fmt [ArgTraceback e];;
                      raise (CookidooParseException msg e))
            | _ => None
            end).

(** ** Account *)

Definition get_user_info : M (list (string * json)) :=
  except_transport
    "Exception: Cannot get user info:\n%s"
    "Loading user info failed due to connection timeout."
    "Exception: Cannot user info:\n%s"
    "Loading user info failed due to request exception."
    (r ← session_request GET COMMUNITY_PROFILE_PATH _api_headers NoBody;
     log_response COMMUNITY_PROFILE_PATH r;;
     unauthorized r
         "Exception: Cannot parse request response:\n %s"
         "Exception: Cannot get user info: %s"
         "Loading user info failed due to authorization failure, the authorization token is invalid or expired.";;
     lift (raise_for_status r);;
     except_parse
         "Exception: Cannot get user info:\n%s"
         "Loading user info failed during parsing of request response."
         (j ← lift (response_json r);
        u ← lift (py_getitem j "userInfo");
        items ← lift (py_items u);
        mret (project CookidooUserInfo_annotations items))).

(** [next((s for s in subscriptions if s["active"]), None)]. *)
Fixpoint first_active (subscriptions : list json) : pyres (option json) :=
  match subscriptions with
  | [] => Ok None
  | s :: rest =>
      a ← py_getitem s "active";
      if truthy a then Ok (Some s) else first_active rest
  end.

Definition get_active_subscription : M (option (list (string * json))) :=
  except_transport
    "Exception: Cannot get active subscription:\n%s"
    "Loading user info failed due to connection timeout."
    "Exception: Cannot active subscription:\n%s"
    "Loading active subscription failed due to request exception."
    (r ← session_request GET SUBSCRIPTIONS_PATH _api_headers NoBody;
     log_response SUBSCRIPTIONS_PATH r;;
     unauthorized r
       "Exception: Cannot parse request response:\n %s"
       "Exception: Cannot get active subscription: %s"
       "Loading active subscription failed due to authorization failure, the authorization token is invalid or expired.";;
     lift (raise_for_status r);;
     except_parse
       "Exception: Cannot get active subscription:\n%s"
       "Loading active subscription failed during parsing of request response."
       (j ← lift (response_json r);
        l ← lift (py_iter j);
        found ← lift (first_active l);
        match found with
        | Some subscription =>
            if truthy subscription then
              items ← lift (py_items subscription);
              mret (Some (project CookidooSubscription_annotations items))
            else mret None
        | None => mret None
        end)).

(** ** Recipes *)

Definition get_recipe_details (id : string) : M json :=
  except_transport
    "Exception: Cannot get recipe details:\n%s"
    "Loading recipe details failed due to connection timeout."
    "Exception: Cannot recipe details:\n%s"
    "Loading recipe details failed due to request exception."
    (r ← session_request GET (RECIPE_PATH id) _api_headers NoBody;
     log_response (RECIPE_PATH id) r;;
     unauthorized r
       "Exception: Cannot parse request response:\n %s"
       "Exception: Cannot get recipe details: %s"
       "Loading recipe details failed due to authorization failure, the authorization token is invalid or expired.";;
     lift (raise_for_status r);;
     except_parse
       "Exception: Cannot get recipe details:\n%s"
       "Loading recipe details failed during parsing of request response."
       (j ← lift (response_json r);
        lift (cookidoo_recipe_details_from_json j))).

Definition get_shopping_list_recipes : M (list json) :=
  except_transport
    "Exception: Cannot get recipes:\n%s"
    "Loading recipes failed due to connection timeout."
    "Exception: Cannot recipes:\n%s"
    "Loading recipes failed due to request exception."
    (r ← session_request GET SHOPPING_LIST_RECIPES_PATH _api_headers NoBody;
     log_response SHOPPING_LIST_RECIPES_PATH r;;
     unauthorized r
       "Exception: Cannot parse request response:\n %s"
       "Exception: Cannot get recipes: %s"
       "Loading recipes failed due to authorization failure, the authorization token is invalid or expired.";;
     lift (raise_for_status r);;
     except_parse
       "Exception: Cannot get recipes:\n%s"
       "Loading recipes failed during parsing of request response."
       (j ← lift (response_json r);
        recipes ← lift (py_getitem j "recipes");
        l ← lift (py_iter recipes);
        lift (py_map cookidoo_recipe_from_json l))).

(** ** Ingredient items *)

(** The two-level comprehension
    [[cookidoo_ingredient_item_from_json(ingredient) for recipe in recipes
      for ingredient in recipe["recipeIngredientGroups"]]]. *)
Fixpoint ingredient_items_of (recipes : list json) : pyres (list json) :=
  match recipes with
  | [] => Ok []
  | recipe :: rest =>
      groups ← py_getitem recipe "recipeIngredientGroups";
      ingredients ← py_iter groups;
      xs ← py_map cookidoo_ingredient_item_from_json ingredients;
      ys ← ingredient_items_of rest;
      Ok (xs ++ ys)
  end.

Definition get_ingredient_items : M (list json) :=
  except_transport
    "Exception: Cannot get ingredient items:\n%s"
    "Loading ingredient items failed due to connection timeout."
    "Exception: Cannot ingredient items:\n%s"
    "Loading ingredient items failed due to request exception."
    (r ← session_request GET INGREDIENT_ITEMS_PATH _api_headers NoBody;
     log_response INGREDIENT_ITEMS_PATH r;;
     unauthorized r
       "Exception: Cannot parse request response:\n %s"
       "Exception: Cannot get ingredient items: %s"
       "Loading ingredient items failed due to authorization failure, the authorization token is invalid or expired.";;
     lift (raise_for_status r);;
     except_parse
       "Exception: Cannot get ingredient items:\n%s"
       "Loading ingredient items failed during parsing of request response."
       (j ← lift (response_json r);
        recipes ← lift (py_getitem j "recipes");
        l ← lift (py_iter recipes);
        lift (ingredient_items_of l))).

Definition add_ingredient_items_for_recipes (recipe_ids : list string) : M (list json) :=
  except_transport
    "Exception: Cannot execute add ingredient items for recipes:\n%s"
    "Add ingredient items for recipes failed due to connection timeout."
    "Exception: Cannot execute add ingredient items for recipes:\n%s"
    "Add ingredient items for recipes failed due to request exception."
    (r ← session_request POST ADD_INGREDIENT_ITEMS_FOR_RECIPES_PATH _api_headers (JsonBody (JObj [("recipeIDs", JArr (JStr <$> recipe_ids))]));
     log_response ADD_INGREDIENT_ITEMS_FOR_RECIPES_PATH r;;
     unauthorized r
       "Exception: Cannot parse request response:\n %s"
       "Exception: Cannot add ingredient items for recipes: %s"
       "Add ingredient items for recipes failed due to authorization failure, the authorization token is invalid or expired.";;
     lift (raise_for_status r);;
     except_parse
       "Exception: Cannot get added ingredient items:\n%s"
       "Loading added ingredient items failed during parsing of request response."
       (j ← lift (response_json r);
        recipes ← lift (py_getitem j "data");
        l ← lift (py_iter recipes);
        lift (ingredient_items_of l))).

Definition remove_ingredient_items_for_recipes (recipe_ids : list string) : M unit :=
  except_transport
    "Exception: Cannot execute remove ingredient items for recipes:\n%s"
    "Remove ingredient items for recipes failed due to connection timeout."
    "Exception: Cannot execute remove ingredient items for recipes:\n%s"
    "Remove ingredient items for recipes failed due to request exception."
    (r ← session_request POST REMOVE_INGREDIENT_ITEMS_FOR_RECIPES_PATH _api_headers (JsonBody (JObj [("recipeIDs", JArr (JStr <$> recipe_ids))]));
     log_response REMOVE_INGREDIENT_ITEMS_FOR_RECIPES_PATH r;;
     unauthorized r
       "Exception: Cannot parse request response:\n %s"
       "Exception: Cannot remove ingredient items for recipes: %s"
       "Remove ingredient items for recipes failed due to authorization failure, the authorization token is invalid or expired.";;
     lift (raise_for_status r)).

(** One entry of the ownership payloads, with the clock read for it. *)
Definition ownership_entry (now : Z) (item : json) : pyres json :=
  id ← py_getitem item "id";
  is_owned ← py_getitem item "is_owned";
  Ok (JObj [("id", id); ("isOwned", is_owned); ("ownedTimestamp", JInt now)]).

Definition edit_ingredient_items_ownership (ingredient_items : list json) : M (list json) :=
  now ← get clock;
  entries ← lift (py_map (ownership_entry now) ingredient_items);
  except_transport
    "Exception: Cannot execute edit ingredient items ownership:\n%s"
    "Edit ingredient items ownership failed due to connection timeout."
    "Exception: Cannot execute edit ingredient items ownership:\n%s"
    "Edit ingredient items ownership failed due to request exception."
    (r ← session_request POST EDIT_OWNERSHIP_INGREDIENT_ITEMS_PATH _api_headers (JsonBody (JObj [("ingredients", JArr entries)]));
     log_response EDIT_OWNERSHIP_INGREDIENT_ITEMS_PATH r;;
     unauthorized r
       "Exception: Cannot parse request response:\n %s"
       "Exception: Cannot edit recipe ingredient items ownership: %s"
       "Edit ingredient items ownership failed due to authorization failure, the authorization token is invalid or expired.";;
     lift (raise_for_status r);;
     except_parse
       "Exception: Cannot get edited ingredient items:\n%s"
       "Loading edited ingredient items failed during parsing of request response."
       (j ← lift (response_json r);
        data ← lift (py_getitem j "data");
        l ← lift (py_iter data);
        lift (py_map cookidoo_ingredient_item_from_json l))).

(** ** Additional items *)

Definition get_additional_items : M (list json) :=
  except_transport
    "Exception: Cannot get additional items:\n%s"
    "Loading additional items failed due to connection timeout."
    "Exception: Cannot additional items:\n%s"
    "Loading additional items failed due to request exception."
    (r ← session_request GET ADDITIONAL_ITEMS_PATH _api_headers NoBody;
     log_response ADDITIONAL_ITEMS_PATH r;;
     unauthorized r
       "Exception: Cannot parse request response:\n %s"
       "Exception: Cannot get additional items: %s"
       "Loading additional items failed due to authorization failure, the authorization token is invalid or expired.";;
     lift (raise_for_status r);;
     except_parse
       "Exception: Cannot get additional items:\n%s"
       "Loading additional items failed during parsing of request response."
       (j ← lift (response_json r);
        items ← lift (py_getitem j "additionalItems");
        l ← lift (py_iter items);
        lift (py_map cookidoo_additional_item_from_json l))).

Definition add_additional_items (additional_item_names : list string) : M (list json) :=
  except_transport
    "Exception: Cannot execute add additional items:\n%s"
    "Add additional items failed due to connection timeout."
    "Exception: Cannot execute add additional items:\n%s"
    "Add additional items failed due to request exception."
    (r ← session_request POST ADD_ADDITIONAL_ITEMS_PATH _api_headers (JsonBody (JObj [("itemsValue", JArr (JStr <$> additional_item_names))]));
     log_response ADD_ADDITIONAL_ITEMS_PATH r;;
     unauthorized r
       "Exception: Cannot parse request response:\n %s"
       "Exception: Cannot add additional items: %s"
       "Add additional items failed due to authorization failure, the authorization token is invalid or expired.";;
     lift (raise_for_status r);;
     except_parse
       "Exception: Cannot get added additional items:\n%s"
       "Loading added additional items failed during parsing of request response."
       (j ← lift (response_json r);
        data ← lift (py_getitem j "data");
        l ← lift (py_iter data);
        lift (py_map cookidoo_additional_item_from_json l))).

(** One entry of the payload of [edit_additional_items]. *)
Definition rename_entry (item : json) : pyres json :=
  id ← py_getitem item "id";
  name ← py_getitem item "name";
  Ok (JObj [("id", id); ("name", name)]).

Definition edit_additional_items (additional_items : list json) : M (list json) :=
  entries ← lift (py_map rename_entry additional_items);
  except_transport
    "Exception: Cannot execute edit additional items:\n%s"
    "Edit additional items failed due to connection timeout."
    "Exception: Cannot execute edit additional items:\n%s"
    "Edit additional items failed due to request exception."
    (r ← session_request POST EDIT_ADDITIONAL_ITEMS_PATH _api_headers (JsonBody (JObj [("additionalItems", JArr entries)]));
     log_response EDIT_ADDITIONAL_ITEMS_PATH r;;
     unauthorized r
       "Exception: Cannot parse request response:\n %s"
       "Exception: Cannot edit additional items: %s"
       "Edit additional items failed due to authorization failure, the authorization token is invalid or expired.";;
     lift (raise_for_status r);;
     except_parse
       "Exception: Cannot get edited additional items:\n%s"
       "Loading edited additional items failed during parsing of request response."
       (j ← lift (response_json r);
        data ← lift (py_getitem j "data");
        l ← lift (py_iter data);
        lift (py_map cookidoo_additional_item_from_json l))).

Definition edit_additional_items_ownership (additional_items : list json) : M (list json) :=
  now ← get clock;
  entries ← lift (py_map (ownership_entry now) additional_items);
  except_transport
    "Exception: Cannot execute edit additional items ownership:\n%s"
    "Edit additional items ownership failed due to connection timeout."
    "Exception: Cannot execute edit additional items ownership:\n%s"
    "Edit additional items ownership failed due to request exception."
    (r ← session_request POST EDIT_OWNERSHIP_ADDITIONAL_ITEMS_PATH _api_headers (JsonBody (JObj [("additionalItems", JArr entries)]));
     log_response EDIT_OWNERSHIP_ADDITIONAL_ITEMS_PATH r;;
     unauthorized r
       "Exception: Cannot parse request response:\n %s"
       "Exception: Cannot edit additional items ownership: %s"
       "Edit additional items ownership failed due to authorization failure, the authorization token is invalid or expired.";;
     lift (raise_for_status r);;
     except_parse
       "Exception: Cannot get edited additional items:\n%s"
       "Loading edited additional items failed during parsing of request response."
       (j ← lift (response_json r);
        data ← lift (py_getitem j "data");
        l ← lift (py_iter data);
        lift (py_map cookidoo_additional_item_from_json l))).

Definition remove_additional_items (additional_item_ids : list string) : M unit :=
  except_transport
    "Exception: Cannot execute remove additional items:\n%s"
    "Remove additional items failed due to connection timeout."
    "Exception: Cannot execute remove additional items:\n%s"
    "Remove additional items failed due to request exception."
    (r ← session_request POST REMOVE_ADDITIONAL_ITEMS_PATH _api_headers (JsonBody (JObj [("additionalItemIDs", JArr (JStr <$> additional_item_ids))]));
     log_response REMOVE_ADDITIONAL_ITEMS_PATH r;;
     unauthorized r
       "Exception: Cannot parse request response:\n %s"
       "Exception: Cannot remove additional items: %s"
       "Remove additional items failed due to authorization failure, the authorization token is invalid or expired.";;
     lift (raise_for_status r)).

Definition clear_shopping_list : M unit :=
  except_transport
    "Exception: Cannot execute clear shopping list:\n%s"
    "Clear shopping list failed due to connection timeout."
    "Exception: Cannot execute clear shopping list:\n%s"
    "Clear shopping list failed due to request exception."
    (r ← session_request DELETE INGREDIENT_ITEMS_PATH _api_headers NoBody;
     log_response INGREDIENT_ITEMS_PATH r;;
     unauthorized r
       "Exception: Cannot parse request response:\n %s"
       "Exception: Cannot clear shopping list: %s"
       "Clear shopping list failed due to authorization failure, the authorization token is invalid or expired.";;
     lift (raise_for_status r)).

End Cookidoo.

(** Parts of the methods that the properties below speak about. *)

(** The [try] statement of [_request_access_token], up to the assignment of
    [data]; the method is this, then the [auth_data] setter. *)
Definition grant_response (fd : list (string * json)) : M (list (string * json)) :=
  except_transport
    "Exception: Cannot request access token:\n %s"
    "Authentication failed due to connection timeout."
    "Exception: Cannot request access token:\n %s"
    "Authentication failed due to request exception."
    (r ← session_request POST TOKEN_ENDPOINT _token_headers (FormData fd);
     debug "Response from %s [%s]: %s"
       [ArgUrl TOKEN_ENDPOINT; ArgStatus (status r);
        ArgText (if decide (status r ≠ 200) then text r else EmptyString)];;
     unauthorized r
       "Exception: Cannot parse access token request response:\n %s"
       "Exception: Cannot request access token: %s"
       "Access token request failed due to authorization failure, please check your email and password or refresh token.";;
     (if decide (status r = HTTPStatus_BAD_REQUEST) then
        debug "Exception: Cannot request access token: %s" [ArgText (text r)];;
        raise (CookidooAuthException
                 "Access token request failed due to bad request, please check your email or refresh token.")
      else mret ());;
     lift (raise_for_status r);;
     try_except
       (j ← lift (response_json r);
        items ← lift (py_items j);
        mret (project CookidooAuthResponse_annotations items))
       (λ e, match e with
             | JSONDecodeError =>
                 Some (debug "Exception: Cannot request access token:\n %s"
                         [ArgTraceback e];;
                       raise (CookidooParseException
                                "Cannot parse access token request response." e))
             | _ => None
             end)).

(** The session answers every request with the response [r]. *)
Definition answers (w : World) (r : ClientResponse) : Prop :=
  ∀ q, _session w q = Responds r.

(** The failures the docstrings of [login] and [refresh_token] announce:
    the exceptions of [cookidoo_api.exceptions]. *)
Definition documented_failure (e : exn) : Prop :=
  match e with
  | CookidooConfigException _
  | CookidooAuthException _
  | CookidooRequestException _ _
  | CookidooParseException _ _ => True
  | _ => False
  end.

(** The session state: what a grant replaces. *)
Definition session_state (w : World)
  : option (list (string * json)) * gmap string string * option Z :=
  (_auth_data w, _api_headers w, __expires_in w).

(** [m] leaves the part [proj] of the world as it found it. *)
Definition preserves {A B} (proj : World → B) (m : M A) : Prop :=
  ∀ w, proj (m w).2 = proj w.

(** Parts of the world that logging, respectively sending, does not touch. *)
Class LogBlind {B} (proj : World → B) : Prop :=
  log_blind : ∀ l w, proj (set_log l w) = proj w.

Class WireBlind {B} (proj : World → B) : Prop :=
  wire_blind : ∀ q w, proj (set_wire q w) = proj w.

(** The shape shared by the API methods: send with the API headers, log the
    response, handle 401, [raise_for_status], then the stage [parse]; all of
    it under the two transport except clauses. *)
Definition api_call {A} (fmt_timeout msg_timeout fmt_client msg_client : string)
    (m : http_method) (u : endpoint) (p : payload)
    (parse_fmt fmt msg : string) (parse : ClientResponse → M A) : M A :=
  except_transport fmt_timeout msg_timeout fmt_client msg_client
    (r ← session_request m u _api_headers p;
     log_response u r;;
     unauthorized r parse_fmt fmt msg;;
     lift (raise_for_status r);;
     parse r).

(** The world once [q] is sent and the response [r] to it is logged. *)
Definition responded (q : request) (r : ClientResponse) (w : World) : World :=
  set_log (log w ++ [LogDebug "Response from %s [%s]: %s"
                       [ArgUrl (req_url q); ArgStatus (status r); ArgText (text r)]])
          (set_wire (wire w ++ [q]) w).

(** The result is a [CookidooRequestException] caused by the response error
    for [code]. *)
Definition request_error_for {A} (code : Z) (res : pyres A) : Prop :=
  ∃ msg, res = Raise (CookidooRequestException msg
                        (ClientError (ClientResponseError code))).

Definition auth_error {A} (res : pyres A) : Prop :=
  ∃ msg, res = Raise (CookidooAuthException msg).

Definition parse_error {A} (res : pyres A) : Prop :=
  ∃ msg cause, res = Raise (CookidooParseException msg cause).

(** The world a grant leaves when the response [r] to its request [q] is
    accepted and [data] is stored at clock [clock w], the expiry lying [n]
    seconds ahead. *)
Definition granted (py_str : json → string) (q : request) (r : ClientResponse)
    (data : list (string * json)) (tt : string) (at_ : json) (n : Z)
    (w : World) : World :=
  set_expires_in (Some (clock w + n))
    (set_auth_data (Some data)
       (set_api_headers
          (<["AUTHORIZATION" :=
               AUTHORIZATION_HEADER_format (str_capitalize (str_lower tt))
                                           (format_field py_str at_)]>
             (_api_headers w))
          (set_log
             (log w ++
                [LogDebug "Response from %s [%s]: %s"
                   [ArgUrl TOKEN_ENDPOINT; ArgStatus (status r);
                    ArgText (if decide (status r ≠ 200) then text r
                             else EmptyString)]])
             (set_wire (wire w ++ [q]) w)))).

(** A subscription whose [active] member is there and false. *)
Definition inactive (s : json) : Prop :=
  ∃ a, py_getitem s "active" = Ok a ∧ truthy a = false.

(** A recipe of the shopping list with the ingredient groups [groups]. *)
Definition recipe_with_groups (recipe : json) (groups : list json) : Prop :=
  py_getitem recipe "recipeIngredientGroups" = Ok (JArr groups).

(** [Cookidoo.__init__]: copies of the two default header dicts of
    [cookidoo_api.const], no auth data, no expiry.  [now] is the clock of
    the world the client is created in. *)
Definition __init__ (DEFAULT_TOKEN_HEADERS DEFAULT_API_HEADERS : gmap string string)
    (session : request → outcome) (cfg : CookidooConfig) (now : Z) : World :=
  mkWorld session cfg DEFAULT_TOKEN_HEADERS DEFAULT_API_HEADERS None None now [] [].

(** The result is a [CookidooRequestException] caused by [cause]. *)
Definition request_error_from {A} (cause : exn) (res : pyres A) : Prop :=
  ∃ msg, res = Raise (CookidooRequestException msg cause).

(** What the session raises instead of answering, and the exception that
    reaches the except clauses then. *)
Definition transport_failure (o : outcome) (cause : exn) : Prop :=
  match o with
  | RaisesTimeout => cause = TimeoutError
  | RaisesClientError k => cause = ClientError k
  | Responds _ => False
  end.

(** A 401 whose diagnostics can be logged: the body does not decode, or it
    decodes to an object with [error_description]. *)
Definition plain_unauthorized (r : ClientResponse) : Prop :=
  status r = 401
  ∧ match body_json r with
    | JsonValue j => ∃ v, py_getitem j "error_description" = Ok v
    | _ => True
    end.

(** [P] holds of each of the fourteen API methods (all but [login] and
    [refresh_token]), called with the given arguments. *)
Definition every_api_method
    (CookidooUserInfo_annotations CookidooSubscription_annotations : list string)
    (cookidoo_recipe_details_from_json cookidoo_recipe_from_json
     cookidoo_ingredient_item_from_json cookidoo_additional_item_from_json
       : json → pyres json)
    (id : string) (ids : list string) (items : list json)
    (P : ∀ A, M A → Prop) : Prop :=
  P _ (get_user_info CookidooUserInfo_annotations)
  ∧ P _ (get_active_subscription CookidooSubscription_annotations)
  ∧ P _ (get_recipe_details cookidoo_recipe_details_from_json id)
  ∧ P _ (get_shopping_list_recipes cookidoo_recipe_from_json)
  ∧ P _ (get_ingredient_items cookidoo_ingredient_item_from_json)
  ∧ P _ (add_ingredient_items_for_recipes cookidoo_ingredient_item_from_json ids)
  ∧ P _ (remove_ingredient_items_for_recipes ids)
  ∧ P _ (edit_ingredient_items_ownership cookidoo_ingredient_item_from_json items)
  ∧ P _ (get_additional_items cookidoo_additional_item_from_json)
  ∧ P _ (add_additional_items cookidoo_additional_item_from_json ids)
  ∧ P _ (edit_additional_items cookidoo_additional_item_from_json items)
  ∧ P _ (edit_additional_items_ownership cookidoo_additional_item_from_json items)
  ∧ P _ (remove_additional_items ids)
  ∧ P _ (clear_shopping_list).

(** [P] holds of each of the eleven API methods that read the body of an
    accepted response. *)
Definition every_parsing_method
    (CookidooUserInfo_annotations CookidooSubscription_annotations : list string)
    (cookidoo_recipe_details_from_json cookidoo_recipe_from_json
     cookidoo_ingredient_item_from_json cookidoo_additional_item_from_json
       : json → pyres json)
    (id : string) (ids : list string) (items : list json)
    (P : ∀ A, M A → Prop) : Prop :=
  P _ (get_user_info CookidooUserInfo_annotations)
  ∧ P _ (get_active_subscription CookidooSubscription_annotations)
  ∧ P _ (get_recipe_details cookidoo_recipe_details_from_json id)
  ∧ P _ (get_shopping_list_recipes cookidoo_recipe_from_json)
  ∧ P _ (get_ingredient_items cookidoo_ingredient_item_from_json)
  ∧ P _ (add_ingredient_items_for_recipes cookidoo_ingredient_item_from_json ids)
  ∧ P _ (edit_ingredient_items_ownership cookidoo_ingredient_item_from_json items)
  ∧ P _ (get_additional_items cookidoo_additional_item_from_json)
  ∧ P _ (add_additional_items cookidoo_additional_item_from_json ids)
  ∧ P _ (edit_additional_items cookidoo_additional_item_from_json items)
  ∧ P _ (edit_additional_items_ownership cookidoo_additional_item_from_json items).

(** The header that the [auth_data] setter derives from [d], when [d] has
    what it takes. *)
Definition header_of (py_str : json → string) (d : list (string * json))
  : option string :=
  match dict_get "token_type" d, dict_get "access_token" d with
  | Some (JStr type), Some access_token =>
      Some (AUTHORIZATION_HEADER_format (str_capitalize (str_lower type))
                                        (format_field py_str access_token))
  | _, _ => None
  end.

(** Held auth data and the [AUTHORIZATION] header agree. *)
Definition in_sync (py_str : json → string) (w : World) : Prop :=
  match _auth_data w with
  | Some d => is_Some (header_of py_str d)
              ∧ _api_headers w !! "AUTHORIZATION" = header_of py_str d
  | None => True
  end.

(** The character codes of a string, and the strings that are ASCII text. *)
Definition codes (s : string) : list nat :=
  Ascii.nat_of_ascii <$> String.list_ascii_of_string s.

Definition ascii_only (s : string) : Prop :=
  Forall (λ n, n < 128)%nat (codes s).

(** Modelled from the spec: the "capitalized" form of a token type, said
    through the ASCII codes and not through the functions of the model.  The
    first character of [t] is the one of [s], raised if it is a small letter
    (97-122 to 65-90); every later character is the one of [s], lowered if it
    is a capital letter (65-90 to 97-122). *)
Definition first_code (n : nat) : nat :=
  if decide (97 ≤ n ≤ 122)%nat then (n - 32)%nat else n.

Definition later_code (n : nat) : nat :=
  if decide (65 ≤ n ≤ 90)%nat then (n + 32)%nat else n.

Definition capitalized (s t : string) : Prop :=
  codes t = match codes s with
            | [] => []
            | n :: rest => first_code (later_code n) :: (later_code <$> rest)
            end.

(** ** Sample runs *)

(** Stand-ins for [str()] and [int()] on values the samples never hand
    them, and for the converters of the helpers module. *)
Definition sample_str : json → string := λ _, "<value>".
Definition sample_int : string → option Z := λ _, None.
Definition as_is : json → pyres json := Ok.

(** A client just constructed, at second 1700000000, whose session answers
    every request with [r]. *)
Definition answering (r : ClientResponse) : World :=
  mkWorld (λ _, Responds r) (mkConfig "cook@example.org" "secret")
          ∅ ∅ None None 1700000000 [] [].

Definition token_fields : list (string * json) :=
  [("access_token", JStr "AT"); ("refresh_token", JStr "RT");
   ("token_type", JStr "bearer"); ("expires_in", JInt 3600)].

Definition token_response (code : Z) : ClientResponse :=
  mkResponse code "TOKEN-BODY" (JsonValue (JObj (("scope", JStr "all") :: token_fields))).

(** The client after a [login] answered by a 200 with the token body. *)
Definition logged_in : World :=
  (login sample_str sample_int (answering (token_response 200))).2.

(** A 401 whose body is an empty JSON object, and one that is no JSON. *)
Definition bare_unauthorized : ClientResponse :=
  mkResponse 401 "{}" (JsonValue (JObj [])).
Definition garbled_unauthorized : ClientResponse :=
  mkResponse 401 "<html>" JsonDecodeFailure.

Definition bad_request : ClientResponse :=
  mkResponse 400 "bad request" JsonDecodeFailure.

Definition not_modified : ClientResponse :=
  mkResponse 304 "not modified" JsonDecodeFailure.

(** A token body without [refresh_token]. *)
Definition short_token_response : ClientResponse :=
  mkResponse 200 "TOKEN-BODY"
    (JsonValue (JObj [("access_token", JStr "AT"); ("token_type", JStr "bearer");
                      ("expires_in", JInt 3600)])).

Definition subscription (name : string) (active : bool) : list (string * json) :=
  [("active", JBool active); ("type", JStr name); ("internal", JInt 7)].

Definition subscriptions_response : ClientResponse :=
  mkResponse 200 "SUBSCRIPTIONS"
    (JsonValue (JArr [JObj (subscription "TRIAL" false);
                      JObj (subscription "REGULAR" true);
                      JObj (subscription "LATER" true)])).

Definition group (name : string) : json := JObj [("id", JStr name)].

Definition recipe (groups : list json) : json :=
  JObj [("id", JStr "r"); ("recipeIngredientGroups", JArr groups)].

Definition ingredients_response : ClientResponse :=
  mkResponse 200 "INGREDIENTS"
    (JsonValue (JObj [("recipes",
                       JArr [recipe [group "a1"; group "a2"];
                             recipe [group "b1"; group "b2"]])])).

(** A client whose session raises instead of answering. *)
Definition unreachable (o : outcome) : World :=
  mkWorld (λ _, o) (mkConfig "cook@example.org" "secret")
          ∅ ∅ None None 1700000000 [] [].

Definition described_unauthorized : ClientResponse :=
  mkResponse 401 "UNAUTHORIZED"
    (JsonValue (JObj [("error_description", JStr "Token expired")])).

Definition html_page (code : Z) : ClientResponse :=
  mkResponse code "<html>" JsonContentTypeFailure.

Definition garbled (code : Z) : ClientResponse :=
  mkResponse code "{" JsonDecodeFailure.

(** A token body without [expires_in], and one that is a JSON array. *)
Definition timeless_token_response : ClientResponse :=
  mkResponse 200 "TOKEN-BODY"
    (JsonValue (JObj [("access_token", JStr "AT"); ("token_type", JStr "bearer")])).
Definition array_token_response : ClientResponse :=
  mkResponse 200 "[]" (JsonValue (JArr [])).

Definition broken_subscriptions_response : ClientResponse :=
  mkResponse 200 "SUBSCRIPTIONS"
    (JsonValue (JArr [JObj (subscription "TRIAL" false);
                      JObj [("type", JStr "REGULAR")];
                      JObj (subscription "LATER" true)])).

Definition owned_item (name : string) : json :=
  JObj [("id", JStr name); ("is_owned", JBool true)].

Definition data_response (data : list json) : ClientResponse :=
  mkResponse 200 "DATA" (JsonValue (JObj [("data", JArr data)])).


(** Subscriptions none of which is active, the one there is having no
    [active] member at all. *)
Definition activeless_subscriptions_response : ClientResponse :=
  mkResponse 200 "SUBSCRIPTIONS" (JsonValue (JArr [JObj [("type", JStr "REGULAR")]])).

(** A token body whose token type is written in capitals. *)
Definition shouted_token_response : ClientResponse :=
  mkResponse 200 "TOKEN-BODY"
    (JsonValue (JObj [("access_token", JStr "AT"); ("refresh_token", JStr "RT");
                      ("token_type", JStr "BEARER"); ("expires_in", JInt 3600)])).

(** * Properties *)

(** ** The monad *)

Lemma bind_Ok_inv {A B} (m : M A) (f : A → M B) w b w' :
  (m ≫= f) w = (Ok b, w') → ∃ a w1, m w = (Ok a, w1) ∧ f a w1 = (Ok b, w').
Proof.
  unfold mbind, M_mbind, M_bind. destruct (m w) as [[a|e] w1]; [eauto | done].
Qed.

Lemma bind_Raise_inv {A B} (m : M A) (f : A → M B) w e w' :
  (m ≫= f) w = (Raise e, w') →
  m w = (Raise e, w') ∨ ∃ a w1, m w = (Ok a, w1) ∧ f a w1 = (Raise e, w').
Proof.
  unfold mbind, M_mbind, M_bind. destruct (m w) as [[a|e0] w1]; simpl.
  - intros H. right. by exists a, w1.
  - intros [= -> ->]. by left.
Qed.

Lemma bind_Ok_eval {A B} (m : M A) (f : A → M B) w a w1 :
  m w = (Ok a, w1) → (m ≫= f) w = f a w1.
Proof. unfold mbind, M_mbind, M_bind. by intros ->. Qed.

Lemma bind_Raise_eval {A B} (m : M A) (f : A → M B) w e w1 :
  m w = (Raise e, w1) → (m ≫= f) w = (Raise e, w1).
Proof. unfold mbind, M_mbind, M_bind. by intros ->. Qed.

(** ** Frames *)

#[global] Instance session_state_log_blind : LogBlind session_state.
Proof. by intros l w. Qed.
#[global] Instance session_state_wire_blind : WireBlind session_state.
Proof. by intros q w. Qed.
#[global] Instance clock_log_blind : LogBlind clock.
Proof. by intros l w. Qed.
#[global] Instance clock_wire_blind : WireBlind clock.
Proof. by intros q w. Qed.
#[global] Instance wire_log_blind : LogBlind wire.
Proof. by intros l w. Qed.
#[global] Instance session_log_blind : LogBlind _session.
Proof. by intros l w. Qed.
#[global] Instance session_wire_blind : WireBlind _session.
Proof. by intros q w. Qed.

Section Frames.
Context {B : Type} (proj : World → B).

Lemma preserves_ret {A} (a : A) : preserves proj (mret a : M A).
Proof. by intros w. Qed.

Lemma preserves_lift {A} (x : pyres A) : preserves proj (lift x).
Proof. by intros w. Qed.

Lemma preserves_raise {A} (e : exn) : preserves proj (raise e : M A).
Proof. by intros w. Qed.

Lemma preserves_get {A} (f : World → A) : preserves proj (get f).
Proof. by intros w. Qed.

Lemma preserves_debug `{!LogBlind proj} fmt args : preserves proj (debug fmt args).
Proof. intros w. apply log_blind. Qed.

Lemma preserves_session_request `{!WireBlind proj} m u hdrs p :
  preserves proj (session_request m u hdrs p).
Proof.
  intros w. unfold session_request.
  destruct (_session w _); apply wire_blind.
Qed.

Lemma preserves_bind {A C} (m : M A) (f : A → M C) :
  preserves proj m → (∀ a, preserves proj (f a)) → preserves proj (m ≫= f).
Proof.
  intros Hm Hf w. unfold mbind, M_mbind, M_bind.
  specialize (Hm w). destruct (m w) as [[a|e] w1]; simpl in *; [|done].
  by rewrite Hf.
Qed.

Lemma preserves_try_except_else {A C} (body : M A) handler (orelse : A → M C) :
  preserves proj body →
  (∀ e h, handler e = Some h → preserves proj h) →
  (∀ a, preserves proj (orelse a)) →
  preserves proj (try_except_else body handler orelse).
Proof.
  intros Hb Hh Ho w. unfold try_except_else.
  specialize (Hb w). destruct (body w) as [[a|e] w1]; simpl in *.
  - by rewrite Ho.
  - destruct (handler e) as [h|] eqn:He; [|done].
    by rewrite (Hh e h He).
Qed.

Lemma preserves_try_except {A} (body : M A) handler :
  preserves proj body →
  (∀ e h, handler e = Some h → preserves proj h) →
  preserves proj (try_except body handler).
Proof.
  intros. apply preserves_try_except_else; [done | done | apply preserves_ret].
Qed.

Context `{!LogBlind proj}.

Lemma preserves_log_then_raise {A} fmt args e :
  preserves proj (debug fmt args ≫= λ _, raise e : M A).
Proof.
  apply preserves_bind; [apply preserves_debug | intros; apply preserves_raise].
Qed.

Lemma preserves_unauthorized r s1 s2 s3 :
  preserves proj (unauthorized r s1 s2 s3).
Proof.
  unfold unauthorized. case_decide; [|apply preserves_ret].
  apply preserves_bind; [|intros; apply preserves_raise].
  apply preserves_try_except_else; [apply preserves_lift | |].
  - intros e h He. destruct e; simplify_eq; apply preserves_debug.
  - intros j. apply preserves_bind; [apply preserves_lift | intros; apply preserves_debug].
Qed.

Lemma preserves_except_transport {A} a b c d (body : M A) :
  preserves proj body → preserves proj (except_transport a b c d body).
Proof.
  intros Hb. apply preserves_try_except; [done|].
  intros e h He. destruct e; simplify_eq; apply preserves_log_then_raise.
Qed.

Lemma preserves_except_parse {A} a b (body : M A) :
  preserves proj body → preserves proj (except_parse a b body).
Proof.
  intros Hb. apply preserves_try_except; [done|].
  intros e h He. destruct e; simplify_eq; apply preserves_log_then_raise.
Qed.

Lemma preserves_grant_response `{!WireBlind proj} fd :
  preserves proj (grant_response fd).
Proof.
  apply preserves_except_transport.
  apply preserves_bind; [apply preserves_session_request | intros r].
  apply preserves_bind; [apply preserves_debug | intros _].
  apply preserves_bind; [apply preserves_unauthorized | intros _].
  apply preserves_bind.
  { case_decide; [apply preserves_log_then_raise | apply preserves_ret]. }
  intros _. apply preserves_bind; [apply preserves_lift | intros _].
  apply preserves_try_except.
  - apply preserves_bind; [apply preserves_lift | intros j].
    apply preserves_bind; [apply preserves_lift | intros; apply preserves_ret].
  - intros e h He. destruct e; simplify_eq. apply preserves_log_then_raise.
Qed.

End Frames.

(** ** Steps of a call *)

Ltac unfold_M :=
  unfold api_call, grant_response, unauthorized, log_response,
    except_transport, except_parse, try_except, try_except_else,
    session_request, debug, modify, lift, raise, get,
    mbind, mret, M_mbind, M_mret, M_bind, M_ret in *.

Lemma except_transport_Ok_inv {A} a b c d (body : M A) w x w' :
  except_transport a b c d body w = (Ok x, w') → body w = (Ok x, w').
Proof.
  unfold_M. destruct (body w) as [[y|e] w1]; [done|].
  by destruct e.
Qed.

Lemma except_transport_client {A} a b c d (body : M A) w k w1 :
  body w = (Raise (ClientError k), w1) →
  (except_transport a b c d body w).1
  = Raise (CookidooRequestException d (ClientError k)).
Proof. unfold_M. by intros ->. Qed.

Lemma except_transport_timeout {A} a b c d (body : M A) w w1 :
  body w = (Raise TimeoutError, w1) →
  (except_transport a b c d body w).1
  = Raise (CookidooRequestException b TimeoutError).
Proof. unfold_M. by intros ->. Qed.

(** A response that is neither 401 nor an error status reaches the parse
    stage, in the world where the request is sent and the response logged. *)
Lemma api_call_success {A} a b c d m u p s1 s2 s3 (parse : ClientResponse → M A) w r :
  answers w r → status r < 400 →
  api_call a b c d m u p s1 s2 s3 parse w
  = except_transport a b c d (parse r)
      (responded (mkRequest m u (_api_headers w) p) r w).
Proof.
  intros Hs Hlt. unfold_M. unfold raise_for_status, HTTPStatus_UNAUTHORIZED.
  rewrite Hs. rewrite decide_False by lia. by rewrite decide_False by lia.
Qed.

Lemma api_call_error_status {A} a b c d m u p s1 s2 s3 (parse : ClientResponse → M A) w r :
  answers w r → 400 ≤ status r → status r ≠ 401 →
  (api_call a b c d m u p s1 s2 s3 parse w).1
  = Raise (CookidooRequestException d (ClientError (ClientResponseError (status r)))).
Proof.
  intros Hs Hge Hne. unfold_M. unfold raise_for_status, HTTPStatus_UNAUTHORIZED.
  rewrite Hs. rewrite decide_False by done. by rewrite decide_True by done.
Qed.

Lemma api_call_unauthorized_missing {A} a b c d m u p s1 s2 s3 (parse : ClientResponse → M A) w r j e :
  answers w r → status r = 401 →
  body_json r = JsonValue j →
  py_getitem j "error_description" = Raise e →
  (api_call a b c d m u p s1 s2 s3 parse w).1 = Raise e.
Proof.
  intros Hs H401 Hj He. unfold_M. unfold response_json, HTTPStatus_UNAUTHORIZED.
  rewrite Hs. rewrite decide_True by done. rewrite Hj. cbv beta iota. rewrite He.
  destruct j as [| | | | |dd]; simplify_eq/=; try done.
  unfold dict_getitem in He. by destruct (dict_get _ dd); simplify_eq.
Qed.

Lemma api_call_unauthorized {A} a b c d m u p s1 s2 s3 (parse : ClientResponse → M A) w r :
  answers w r → status r = 401 →
  match body_json r with
  | JsonValue j => ∃ v, py_getitem j "error_description" = Ok v
  | _ => True
  end →
  (api_call a b c d m u p s1 s2 s3 parse w).1 = Raise (CookidooAuthException s3).
Proof.
  intros Hs H401 Hj. unfold_M. unfold response_json, HTTPStatus_UNAUTHORIZED.
  rewrite Hs. rewrite decide_True by done.
  destruct (body_json r) as [j| |]; [|done..].
  destruct Hj as [v Hv]. cbv beta iota. by rewrite Hv.
Qed.

Lemma api_call_transport_failure {A} a b c d m u p s1 s2 s3 (parse : ClientResponse → M A) w :
  (∀ q, _session w q = RaisesTimeout) →
  (api_call a b c d m u p s1 s2 s3 parse w).1
  = Raise (CookidooRequestException b TimeoutError).
Proof. intros Hs. unfold_M. by rewrite Hs. Qed.


Lemma except_transport_blind {A B} (proj : World → B) `{!LogBlind proj}
    a b c d (body : M A) w :
  proj (except_transport a b c d body w).2 = proj (body w).2.
Proof.
  unfold_M. destruct (body w) as [[x|e] w1]; [done|].
  destruct e; simpl; try done; apply log_blind.
Qed.

Lemma session_request_bind_wire {A} m u hdrs p (k : ClientResponse → M A) w :
  (∀ r, preserves wire (k r)) →
  wire ((session_request m u hdrs p ≫= k) w).2
  = wire w ++ [mkRequest m u (hdrs w) p].
Proof.
  intros Hk. unfold mbind, M_mbind, M_bind, session_request.
  destruct (_session w _) as [| |r]; simpl; [done | done |].
  by rewrite Hk.
Qed.

(** A call puts exactly one request on the wire, carrying the API headers
    held when it is made. *)
Lemma api_call_wire {A} a b c d m u p s1 s2 s3 (parse : ClientResponse → M A) w :
  (∀ r, preserves wire (parse r)) →
  wire (api_call a b c d m u p s1 s2 s3 parse w).2
  = wire w ++ [mkRequest m u (_api_headers w) p].
Proof.
  intros Hp. unfold api_call. rewrite (except_transport_blind wire).
  apply session_request_bind_wire. intros r.
  apply preserves_bind; [apply preserves_debug; apply _ | intros _].
  apply preserves_bind; [apply preserves_unauthorized; apply _ | intros _].
  apply preserves_bind; [apply preserves_lift | intros _; apply Hp].
Qed.

Lemma auth_response_declares k :
  k = "access_token" ∨ k = "refresh_token" ∨ k = "token_type" ∨ k = "expires_in" →
  k ∈ CookidooAuthResponse_annotations.
Proof.
  unfold CookidooAuthResponse_annotations. rewrite !elem_of_cons. tauto.
Qed.

Lemma elem_of_snoc {A} (l : list A) (x : A) : x ∈ l ++ [x].
Proof. set_solver. Qed.

(** ** The case of the token type *)

Lemma code_ascii_lower c :
  Ascii.nat_of_ascii (ascii_lower c) = later_code (Ascii.nat_of_ascii c).
Proof.
  unfold ascii_lower, later_code.
  pose proof (Ascii.nat_ascii_bounded c) as Hc.
  destruct (Nat.leb_spec 65 (Ascii.nat_of_ascii c));
    destruct (Nat.leb_spec (Ascii.nat_of_ascii c) 90); simpl;
    case_decide; try lia; try done.
  apply Ascii.nat_ascii_embedding. lia.
Qed.

Lemma code_ascii_upper c :
  Ascii.nat_of_ascii (ascii_upper c) = first_code (Ascii.nat_of_ascii c).
Proof.
  unfold ascii_upper, first_code.
  pose proof (Ascii.nat_ascii_bounded c) as Hc.
  destruct (Nat.leb_spec 97 (Ascii.nat_of_ascii c));
    destruct (Nat.leb_spec (Ascii.nat_of_ascii c) 122); simpl;
    case_decide; try lia; try done.
  apply Ascii.nat_ascii_embedding. lia.
Qed.

Lemma codes_cons c s : codes (String c s) = Ascii.nat_of_ascii c :: codes s.
Proof. reflexivity. Qed.

Lemma codes_inj s t : codes s = codes t → s = t.
Proof.
  revert t. induction s as [|c s IH]; intros [|c' t]; try done.
  rewrite !codes_cons. intros [= Hc Hs]. f_equal; [|by apply IH].
  by rewrite <- (Ascii.ascii_nat_embedding c), Hc, Ascii.ascii_nat_embedding.
Qed.

Lemma codes_str_lower s : codes (str_lower s) = later_code <$> codes s.
Proof.
  induction s as [|c s IH]; [done|].
  change (str_lower (String c s)) with (String (ascii_lower c) (str_lower s)).
  by rewrite !codes_cons, code_ascii_lower, IH.
Qed.

Lemma later_code_idemp n : later_code (later_code n) = later_code n.
Proof. unfold later_code. repeat case_decide; lia. Qed.

(** What the setter makes of a token type is its capitalized form. *)
Lemma capitalized_capitalize_lower s :
  capitalized s (str_capitalize (str_lower s)).
Proof.
  unfold capitalized. destruct s as [|c s]; [done|].
  change (str_capitalize (str_lower (String c s)))
    with (String (ascii_upper (ascii_lower c)) (str_lower (str_lower s))).
  rewrite !codes_cons.
  rewrite code_ascii_upper, code_ascii_lower, !codes_str_lower.
  f_equal. rewrite <- list_fmap_compose. apply list_fmap_ext.
  intros i n _. apply later_code_idemp.
Qed.

Lemma ascii_only_capitalize_lower s :
  ascii_only s → ascii_only (str_capitalize (str_lower s)).
Proof.
  unfold ascii_only. rewrite (capitalized_capitalize_lower s).
  destruct (codes s) as [|n rest]; [done|].
  intros [Hn Hrest]%Forall_cons. constructor.
  - cbv beta in *. unfold first_code, later_code. repeat case_decide; lia.
  - apply Forall_fmap. eapply Forall_impl; [exact Hrest|].
    intros m Hm. cbv beta in *. unfold compose, later_code. case_decide; lia.
Qed.

Section Properties.

#[local] Set Default Proof Using "Type".

Variable py_str : json → string.
Variable int_of_str : string → option Z.
Variable COOKIDOO_CLIENT_ID : string.
Variable CookidooUserInfo_annotations : list string.
Variable CookidooSubscription_annotations : list string.
Variable cookidoo_recipe_details_from_json : json → pyres json.
Variable cookidoo_recipe_from_json : json → pyres json.
Variable cookidoo_ingredient_item_from_json : json → pyres json.
Variable cookidoo_additional_item_from_json : json → pyres json.

(** ** The projection *)

Lemma dict_get_project (annotations : list string) (d : list (string * json)) (k : string) :
  dict_get k (project annotations d)
  = if decide (k ∈ annotations) then dict_get k d else None.
Proof.
  unfold project. induction d as [|[k' v] d IH]; simpl.
  - by case_decide.
  - rewrite filter_cons. simpl.
    destruct (decide (k' ∈ annotations)) as [Hin|Hout]; simpl.
    + destruct (decide (k' = k)) as [->|Hne].
      * by case_decide.
      * exact IH.
    + rewrite IH. destruct (decide (k' = k)) as [->|Hne]; [|done].
      by case_decide.
Qed.

Lemma project_keys (annotations : list string) (d : list (string * json)) (k : string) (v : json) :
  (k, v) ∈ project annotations d ↔ k ∈ annotations ∧ (k, v) ∈ d.
Proof. unfold project. by rewrite list_elem_of_filter. Qed.

(** ** Grants *)

Lemma request_access_token_unfold fd :
  _request_access_token py_str int_of_str fd
  = (data ← grant_response fd;
     auth_data_setter py_str int_of_str data;;
     mret data).
Proof. reflexivity. Qed.

(** A grant gets past its [try] statement only on a response below 400
    whose body is a JSON object, with the projection of that object. *)
Lemma grant_response_Ok_inv fd w data w1 :
  grant_response fd w = (Ok data, w1) →
  ∃ r d,
    _session w (mkRequest POST TOKEN_ENDPOINT (_token_headers w) (FormData fd))
      = Responds r
    ∧ status r < 400
    ∧ body_json r = JsonValue (JObj d)
    ∧ data = project CookidooAuthResponse_annotations d.
Proof.
  unfold grant_response. intros H%except_transport_Ok_inv.
  apply bind_Ok_inv in H as (r & w2 & Hreq & H).
  apply bind_Ok_inv in H as ([] & w3 & _ & H).
  apply bind_Ok_inv in H as ([] & w4 & _ & H).
  apply bind_Ok_inv in H as ([] & w5 & _ & H).
  apply bind_Ok_inv in H as ([] & w6 & Hst & H).
  exists r.
  unfold session_request in Hreq.
  destruct (_session w _) as [| |r0] eqn:Hs; [done | done |].
  injection Hreq as Hr Hw. subst r0 w2.
  unfold lift, raise_for_status in Hst. case_decide; simplify_eq.
  unfold try_except, try_except_else in H.
  match type of H with context [mbind ?f ?m w6] =>
    destruct (mbind f m w6) as [[x|e] w7] eqn:Hparse end.
  - unfold M_ret in H. simplify_eq.
    apply bind_Ok_inv in Hparse as (j & w8 & Hj & H).
    apply bind_Ok_inv in H as (d & w9 & Hd & H).
    unfold lift, response_json, py_items, mret, M_mret, M_ret in *.
    destruct (body_json r) as [j'| |]; simplify_eq.
    destruct j; simplify_eq.
    exists d. repeat split; first [done | lia].
  - by destruct e.
Qed.

Lemma auth_data_setter_Ok_inv data w w' :
  auth_data_setter py_str int_of_str data w = (Ok (), w') →
  ∃ tt at_ v n,
    dict_get "token_type" data = Some (JStr tt)
    ∧ dict_get "access_token" data = Some at_
    ∧ dict_get "expires_in" data = Some v
    ∧ py_int int_of_str v = Ok n
    ∧ w' = set_expires_in (Some (clock w + n))
             (set_auth_data (Some data)
                (set_api_headers
                   (<["AUTHORIZATION" :=
                        AUTHORIZATION_HEADER_format
                          (str_capitalize (str_lower tt))
                          (format_field py_str at_)]> (_api_headers w)) w)).
Proof.
  unfold auth_data_setter, expires_in_setter, dict_getitem, py_lower. unfold_M.
  destruct (dict_get "token_type" data) as [[| | |tt| |]|]; try done.
  destruct (dict_get "access_token" data) as [at_|]; [|done].
  destruct (dict_get "expires_in" data) as [v|]; [|done].
  destruct (py_int int_of_str v) as [n|] eqn:Hn; [|done].
  intros [= <-]. by exists tt, at_, v, n.
Qed.

(** The setter raises nothing but the errors of the look-ups and
    conversions it makes. *)
Lemma auth_data_setter_Raise_inv data w e w' :
  auth_data_setter py_str int_of_str data w = (Raise e, w') →
  ¬ documented_failure e.
Proof.
  unfold auth_data_setter, expires_in_setter, dict_getitem, py_lower. unfold_M.
  destruct (dict_get "token_type" data) as [[| | |tt| |]|];
    try (intros [= <- <-] Hdoc; exact Hdoc).
  destruct (dict_get "access_token" data) as [at_|];
    [|intros [= <- <-] Hdoc; exact Hdoc].
  destruct (dict_get "expires_in" data) as [v|];
    [|intros [= <- <-] Hdoc; exact Hdoc].
  destruct (py_int int_of_str v) as [n|e'] eqn:Hn; [done|].
  intros [= <- <-] Hdoc.
  unfold py_int in Hn. repeat case_match; simplify_eq; exact Hdoc.
Qed.

Lemma request_access_token_Ok_inv fd w data w' :
  _request_access_token py_str int_of_str fd w = (Ok data, w') →
  ∃ r d tt at_ v n,
    _session w (mkRequest POST TOKEN_ENDPOINT (_token_headers w) (FormData fd))
      = Responds r
    ∧ status r < 400
    ∧ body_json r = JsonValue (JObj d)
    ∧ data = project CookidooAuthResponse_annotations d
    ∧ dict_get "token_type" data = Some (JStr tt)
    ∧ dict_get "access_token" data = Some at_
    ∧ dict_get "expires_in" data = Some v
    ∧ py_int int_of_str v = Ok n
    ∧ _api_headers w'
      = <["AUTHORIZATION" :=
            AUTHORIZATION_HEADER_format (str_capitalize (str_lower tt))
                                        (format_field py_str at_)]> (_api_headers w)
    ∧ _auth_data w' = Some data
    ∧ __expires_in w' = Some (clock w + n)
    ∧ clock w' = clock w.
Proof.
  rewrite request_access_token_unfold. intros H.
  apply bind_Ok_inv in H as (data' & w1 & Hg & H).
  apply bind_Ok_inv in H as ([] & w2 & Hset & H).
  unfold mret, M_mret, M_ret in H. simplify_eq.
  pose proof (preserves_grant_response session_state fd w) as Hss.
  pose proof (preserves_grant_response clock fd w) as Hck.
  rewrite Hg in Hss, Hck. simpl in Hss, Hck.
  unfold session_state in Hss. simplify_eq.
  apply grant_response_Ok_inv in Hg as (r & d & Hs & Hlt & Hj & Hd).
  apply auth_data_setter_Ok_inv in Hset as (tt & at_ & v & n & ? & ? & ? & ? & ->).
  exists r, d, tt, at_, v, n. simpl.
  repeat split; try done; congruence.
Qed.

Lemma request_access_token_Raise_inv fd w e w' :
  _request_access_token py_str int_of_str fd w = (Raise e, w') →
  documented_failure e →
  session_state w' = session_state w.
Proof.
  rewrite request_access_token_unfold. intros H Hdoc.
  apply bind_Raise_inv in H as [H | (data & w1 & Hg & H)].
  - pose proof (preserves_grant_response session_state fd w) as Hss.
    by rewrite H in Hss.
  - apply bind_Raise_inv in H as [H | ([] & w2 & _ & H)].
    + by apply auth_data_setter_Raise_inv in H.
    + done.
Qed.

Lemma login_unfold w :
  login py_str int_of_str w
  = _request_access_token py_str int_of_str
      [("grant_type", JStr "password");
       ("username", JStr (email (_cfg w)));
       ("password", JStr (password (_cfg w)))] w.
Proof. reflexivity. Qed.

Lemma refresh_token_unfold w :
  refresh_token py_str int_of_str COOKIDOO_CLIENT_ID w
  = match _auth_data w with
    | Some d =>
        if truthy (JObj d) then
          match dict_getitem d "refresh_token" with
          | Ok tok =>
              _request_access_token py_str int_of_str
                [("grant_type", JStr "refresh_token");
                 ("refresh_token", tok);
                 ("client_id", JStr COOKIDOO_CLIENT_ID)] w
          | Raise e => (Raise e, w)
          end
        else (Raise (CookidooConfigException
                       "No auth data available, please log in first"), w)
    | None => (Raise (CookidooConfigException
                        "No auth data available, please log in first"), w)
    end.
Proof.
  unfold refresh_token, get, lift, raise, mbind, M_mbind, M_bind.
  destruct (_auth_data w) as [d|]; [|done].
  destruct (truthy (JObj d)); [|done].
  by destruct (dict_getitem d "refresh_token").
Qed.

(** [refresh_token] either stops before the grant, in the world it started
    in, or is the grant with the held refresh token. *)
Lemma refresh_token_cases w :
  (∃ e, refresh_token py_str int_of_str COOKIDOO_CLIENT_ID w = (Raise e, w)
        ∧ (e = KeyError "refresh_token" ∨ ∃ msg, e = CookidooConfigException msg))
  ∨ (∃ d tok, _auth_data w = Some d
        ∧ dict_get "refresh_token" d = Some tok
        ∧ refresh_token py_str int_of_str COOKIDOO_CLIENT_ID w
          = _request_access_token py_str int_of_str
              [("grant_type", JStr "refresh_token");
               ("refresh_token", tok);
               ("client_id", JStr COOKIDOO_CLIENT_ID)] w).
Proof.
  rewrite refresh_token_unfold. unfold dict_getitem.
  destruct (_auth_data w) as [d|]; [|left; eauto].
  destruct (truthy (JObj d)); [|left; eauto].
  destruct (dict_get "refresh_token" d) as [tok|] eqn:Htok.
  - right. by exists d, tok.
  - left. eauto.
Qed.

Lemma grant_Ok_inv w data w' :
  login py_str int_of_str w = (Ok data, w')
  ∨ refresh_token py_str int_of_str COOKIDOO_CLIENT_ID w = (Ok data, w') →
  ∃ fd, _request_access_token py_str int_of_str fd w = (Ok data, w').
Proof.
  intros [H|H].
  - rewrite login_unfold in H. eauto.
  - destruct (refresh_token_cases w) as [(e & He & _)|(d & tok & _ & _ & Heq)].
    + congruence.
    + rewrite Heq in H. eauto.
Qed.

Lemma grant_Raise_inv w e w' :
  login py_str int_of_str w = (Raise e, w')
  ∨ refresh_token py_str int_of_str COOKIDOO_CLIENT_ID w = (Raise e, w') →
  w' = w ∨ ∃ fd, _request_access_token py_str int_of_str fd w = (Raise e, w').
Proof.
  intros [H|H].
  - rewrite login_unfold in H. eauto.
  - destruct (refresh_token_cases w) as [(e' & He & _)|(d & tok & _ & _ & Heq)].
    + left. congruence.
    + rewrite Heq in H. eauto.
Qed.

(** C3: [refresh_token] called while no auth data is held raises
    [CookidooConfigException] and leaves the world as it was: nothing is
    sent (the wire is unchanged), whatever the session would have answered. *)
Theorem refresh_token_without_auth_data (w : World) :
  _auth_data w = None →
  refresh_token py_str int_of_str COOKIDOO_CLIENT_ID w
  = (Raise (CookidooConfigException "No auth data available, please log in first"), w)
  ∧ wire (refresh_token py_str int_of_str COOKIDOO_CLIENT_ID w).2 = wire w.
Proof.
  intros Had. rewrite refresh_token_unfold, Had. done.
Qed.

Lemma expires_in_eval w e :
  __expires_in w = Some e → expires_in w = (Ok (Z.max 0 (e - clock w)), w).
Proof. unfold expires_in. by intros ->. Qed.

(** C4: once an absolute expiry [e] is stored, reading [expires_in] at any
    clock value [t] returns [max 0 (e - t)], which is never negative and
    never grows as the clock advances; and when the state comes from a grant
    that stored a server-provided [expires_in] of [n] seconds ([0 ≤ n]) at
    clock [clock w0], the expiry is [clock w0 + n], so the read gives [n] at
    once and a value between [n - δ] and [n] after [δ] seconds. *)
Theorem expires_in_remaining_validity (w : World) (e : Z) :
  __expires_in w = Some e →
  (∀ t, (expires_in (set_clock t w)).1 = Ok (Z.max 0 (e - t))
        ∧ 0 ≤ Z.max 0 (e - t))
  ∧ (∀ t1 t2 x1 x2,
       t1 ≤ t2 →
       (expires_in (set_clock t1 w)).1 = Ok x1 →
       (expires_in (set_clock t2 w)).1 = Ok x2 →
       x2 ≤ x1)
  ∧ (∀ w0 data v n,
       login py_str int_of_str w0 = (Ok data, w)
       ∨ refresh_token py_str int_of_str COOKIDOO_CLIENT_ID w0 = (Ok data, w) →
       dict_get "expires_in" data = Some v →
       py_int int_of_str v = Ok n →
       0 ≤ n →
       e = clock w0 + n
       ∧ (expires_in w).1 = Ok n
       ∧ ∀ δ, 0 ≤ δ →
           ∃ x, (expires_in (set_clock (clock w + δ) w)).1 = Ok x
                ∧ n - δ ≤ x ≤ n).
Proof.
  intros He.
  assert (Hread : ∀ t, (expires_in (set_clock t w)).1 = Ok (Z.max 0 (e - t))).
  { intros t. by rewrite (expires_in_eval _ e). }
  split; [|split].
  - intros t. split; [apply Hread | lia].
  - intros t1 t2 x1 x2 Hle H1 H2. rewrite Hread in H1, H2. simplify_eq. lia.
  - intros w0 data v n Hgrant Hv Hn Hpos.
    apply grant_Ok_inv in Hgrant as [fd Hgrant].
    apply request_access_token_Ok_inv in Hgrant
      as (r & d & tt & at_ & v' & n' & _ & _ & _ & _ & _ & _ & Hv' & Hn' & _ & _ & He' & Hck).
    assert (v' = v) as -> by congruence.
    assert (n' = n) as -> by congruence.
    assert (e = clock w0 + n) as -> by congruence.
    split; [done|]. split.
    + rewrite (expires_in_eval _ (clock w0 + n)) by done. simpl. f_equal. lia.
    + intros δ Hδ. exists (Z.max 0 (clock w0 + n - (clock w + δ))).
      split; [apply Hread | lia].
Qed.

(** C8: after a grant that returns, the returned data holds a str token
    type and an access token; when the token type is ASCII text, the
    [AUTHORIZATION] entry of the API headers is its capitalized form (first
    letter raised, the others lowered), a space and the access token, and
    the request that a following [get_additional_items] sends carries that
    entry; [bearer] and [AT] give [Bearer AT]. *)
Theorem grant_sets_authorization_header (w : World) data (w' : World) :
  login py_str int_of_str w = (Ok data, w')
  ∨ refresh_token py_str int_of_str COOKIDOO_CLIENT_ID w = (Ok data, w') →
  ∃ tt at_,
    dict_get "token_type" data = Some (JStr tt)
    ∧ dict_get "access_token" data = Some at_
    ∧ (ascii_only tt →
       ∃ type,
         capitalized tt type
         ∧ ascii_only type
         ∧ _api_headers w' !! "AUTHORIZATION"
           = Some (type +:+ " " +:+ format_field py_str at_)
         ∧ ∃ q, wire (get_additional_items cookidoo_additional_item_from_json w').2
                = wire w' ++ [q]
                ∧ req_url q = ADDITIONAL_ITEMS_PATH
                ∧ req_headers q !! "AUTHORIZATION"
                  = Some (type +:+ " " +:+ format_field py_str at_))
    ∧ (tt = "bearer" → at_ = JStr "AT" →
       _api_headers w' !! "AUTHORIZATION" = Some "Bearer AT").
Proof.
  intros Hgrant.
  apply grant_Ok_inv in Hgrant as [fd Hgrant].
  apply request_access_token_Ok_inv in Hgrant
    as (r & d & tt & at_ & v & n & _ & _ & _ & _ & Htt & Hat & _ & _ & Hh & _).
  assert (Hlook : _api_headers w' !! "AUTHORIZATION"
          = Some (str_capitalize (str_lower tt) +:+ " " +:+ format_field py_str at_)).
  { rewrite Hh. apply lookup_insert_eq. }
  exists tt, at_. split; [done|]. split; [done|]. split.
  - intros Hascii. exists (str_capitalize (str_lower tt)).
    split; [apply capitalized_capitalize_lower|].
    split; [by apply ascii_only_capitalize_lower|].
    split; [done|].
    eexists. split; [|split].
    + unfold get_additional_items. apply api_call_wire.
      intros r'. apply preserves_except_parse; [apply _|].
      repeat (apply preserves_bind; [apply preserves_lift | intros ?]).
      apply preserves_lift.
    + done.
    + done.
  - intros -> ->. by rewrite Hlook.
Qed.

(** C10: when [login] or [refresh_token] raises one of the exceptions of
    [cookidoo_api.exceptions], the held auth data, the API headers with
    their [AUTHORIZATION] entry and the stored absolute expiry are what they
    were before the call. *)
Theorem failed_grant_keeps_session_state (w : World) (e : exn) (w' : World) :
  login py_str int_of_str w = (Raise e, w')
  ∨ refresh_token py_str int_of_str COOKIDOO_CLIENT_ID w = (Raise e, w') →
  documented_failure e →
  _auth_data w' = _auth_data w
  ∧ _api_headers w' = _api_headers w
  ∧ __expires_in w' = __expires_in w.
Proof.
  intros Hgrant Hdoc.
  apply grant_Raise_inv in Hgrant as [->|[fd Hgrant]]; [done|].
  apply request_access_token_Raise_inv in Hgrant; [|done].
  unfold session_state in Hgrant. by simplify_eq.
Qed.

(** ** Evaluating a grant *)

Lemma grant_response_unauthorized_missing fd w r j e :
  answers w r → status r = 401 →
  body_json r = JsonValue j →
  py_getitem j "error_description" = Raise e →
  (grant_response fd w).1 = Raise e.
Proof.
  intros Hs H401 Hj He. unfold_M. unfold response_json, HTTPStatus_UNAUTHORIZED.
  rewrite Hs. rewrite decide_True by done. rewrite Hj. cbv beta iota. rewrite He.
  destruct j as [| | | | |dd]; simplify_eq/=; try done.
  unfold dict_getitem in He. by destruct (dict_get _ dd); simplify_eq.
Qed.

Lemma grant_response_unauthorized fd w r :
  answers w r → status r = 401 →
  match body_json r with
  | JsonValue j => ∃ v, py_getitem j "error_description" = Ok v
  | _ => True
  end →
  auth_error (grant_response fd w).1.
Proof.
  intros Hs H401 Hj. unfold_M. unfold response_json, HTTPStatus_UNAUTHORIZED.
  rewrite Hs. rewrite decide_True by done.
  destruct (body_json r) as [j| |]; [|by eexists..].
  destruct Hj as [v Hv]. cbv beta iota. rewrite Hv. by eexists.
Qed.

Lemma grant_response_bad_request fd w r :
  answers w r → status r = 400 →
  auth_error (grant_response fd w).1.
Proof.
  intros Hs H400. unfold_M.
  unfold HTTPStatus_UNAUTHORIZED, HTTPStatus_BAD_REQUEST.
  rewrite Hs. rewrite decide_False by lia. rewrite decide_True by done.
  by eexists.
Qed.

Lemma grant_response_error_status fd w r :
  answers w r → 400 < status r → status r ≠ 401 →
  request_error_for (status r) (grant_response fd w).1.
Proof.
  intros Hs Hgt Hne. unfold_M.
  unfold raise_for_status, HTTPStatus_UNAUTHORIZED, HTTPStatus_BAD_REQUEST.
  rewrite Hs. rewrite decide_False by done. rewrite decide_False by lia.
  rewrite decide_True by lia. by eexists.
Qed.

Lemma grant_response_success fd w r d :
  answers w r → status r < 400 →
  body_json r = JsonValue (JObj d) →
  grant_response fd w
  = (Ok (project CookidooAuthResponse_annotations d),
     set_log
       (log w ++
          [LogDebug "Response from %s [%s]: %s"
             [ArgUrl TOKEN_ENDPOINT; ArgStatus (status r);
              ArgText (if decide (status r ≠ 200) then text r
                       else EmptyString)]])
       (set_wire
          (wire w ++ [mkRequest POST TOKEN_ENDPOINT (_token_headers w) (FormData fd)])
          w)).
Proof.
  intros Hs Hlt Hj. unfold_M.
  unfold raise_for_status, response_json, HTTPStatus_UNAUTHORIZED,
    HTTPStatus_BAD_REQUEST.
  rewrite Hs. rewrite (decide_False (P := status r = 401)) by lia.
  rewrite (decide_False (P := status r = 400)) by lia.
  rewrite (decide_False (P := 400 ≤ status r)) by lia.
  by rewrite Hj.
Qed.

Lemma grant_response_undecodable fd w r :
  answers w r → status r < 400 →
  body_json r = JsonDecodeFailure →
  parse_error (grant_response fd w).1.
Proof.
  intros Hs Hlt Hj. unfold_M.
  unfold raise_for_status, response_json, HTTPStatus_UNAUTHORIZED,
    HTTPStatus_BAD_REQUEST.
  rewrite Hs. rewrite (decide_False (P := status r = 401)) by lia.
  rewrite (decide_False (P := status r = 400)) by lia.
  rewrite (decide_False (P := 400 ≤ status r)) by lia.
  rewrite Hj. by eexists _, _.
Qed.

(** A failure of the [try] statement is the failure of the grant. *)
Lemma request_access_token_Raise fd w e :
  (grant_response fd w).1 = Raise e →
  (_request_access_token py_str int_of_str fd w).1 = Raise e.
Proof.
  rewrite request_access_token_unfold. unfold mbind, M_mbind, M_bind.
  destruct (grant_response fd w) as [[x|e'] w1]; simpl; [done|].
  by intros [= ->].
Qed.

Lemma auth_data_setter_eval data w tt at_ v n :
  dict_get "token_type" data = Some (JStr tt) →
  dict_get "access_token" data = Some at_ →
  dict_get "expires_in" data = Some v →
  py_int int_of_str v = Ok n →
  auth_data_setter py_str int_of_str data w
  = (Ok (),
     set_expires_in (Some (clock w + n))
       (set_auth_data (Some data)
          (set_api_headers
             (<["AUTHORIZATION" :=
                  AUTHORIZATION_HEADER_format (str_capitalize (str_lower tt))
                                              (format_field py_str at_)]>
                (_api_headers w)) w))).
Proof.
  intros Htt Hat Hv Hn.
  unfold auth_data_setter, expires_in_setter, dict_getitem, py_lower. unfold_M.
  rewrite Htt, Hat, Hv. simpl. by rewrite Hn.
Qed.

Lemma request_access_token_success fd w r d tt at_ v n :
  answers w r → status r < 400 →
  body_json r = JsonValue (JObj d) →
  dict_get "token_type" (project CookidooAuthResponse_annotations d) = Some (JStr tt) →
  dict_get "access_token" (project CookidooAuthResponse_annotations d) = Some at_ →
  dict_get "expires_in" (project CookidooAuthResponse_annotations d) = Some v →
  py_int int_of_str v = Ok n →
  _request_access_token py_str int_of_str fd w
  = (Ok (project CookidooAuthResponse_annotations d),
     granted py_str (mkRequest POST TOKEN_ENDPOINT (_token_headers w) (FormData fd))
       r (project CookidooAuthResponse_annotations d) tt at_ n w).
Proof.
  intros Hs Hlt Hj Htt Hat Hv Hn.
  rewrite request_access_token_unfold.
  rewrite (bind_Ok_eval _ _ _ _ _ (grant_response_success fd w r d Hs Hlt Hj)).
  rewrite (bind_Ok_eval _ _ _ _ _ (auth_data_setter_eval _ _ tt at_ v n Htt Hat Hv Hn)).
  done.
Qed.

(** ** The API methods *)

(** The methods without a parse stage end on [raise_for_status]. *)
Lemma api_call_no_parse a b c d m u p s1 s2 s3 w :
  except_transport a b c d
    (r ← session_request m u _api_headers p;
     log_response u r;;
     unauthorized r s1 s2 s3;;
     lift (raise_for_status r)) w
  = api_call a b c d m u p s1 s2 s3 (λ _, mret ()) w.
Proof.
  unfold_M. destruct (_session w _) as [| |r]; [done | done |].
  destruct (decide (status r = HTTPStatus_UNAUTHORIZED)).
  - unfold response_json. destruct (body_json r) as [j| |]; [|done..].
    cbv beta iota. by destruct (py_getitem j "error_description").
  - by destruct (raise_for_status r) as [[]|].
Qed.

(** The payload of the ownership methods is built before the call. *)
Lemma edit_ingredient_items_ownership_eval items entries w :
  py_map (ownership_entry (clock w)) items = Ok entries →
  edit_ingredient_items_ownership cookidoo_ingredient_item_from_json items w
  = api_call
      "Exception: Cannot execute edit ingredient items ownership:\n%s"
      "Edit ingredient items ownership failed due to connection timeout."
      "Exception: Cannot execute edit ingredient items ownership:\n%s"
      "Edit ingredient items ownership failed due to request exception."
      POST EDIT_OWNERSHIP_INGREDIENT_ITEMS_PATH
      (JsonBody (JObj [("ingredients", JArr entries)]))
      "Exception: Cannot parse request response:\n %s"
      "Exception: Cannot edit recipe ingredient items ownership: %s"
      "Edit ingredient items ownership failed due to authorization failure, the authorization token is invalid or expired."
      (λ r, except_parse
              "Exception: Cannot get edited ingredient items:\n%s"
              "Loading edited ingredient items failed during parsing of request response."
              (j ← lift (response_json r);
               data ← lift (py_getitem j "data");
               l ← lift (py_iter data);
               lift (py_map cookidoo_ingredient_item_from_json l))) w.
Proof.
  intros He. unfold edit_ingredient_items_ownership.
  unfold mbind at 1 2, M_mbind, M_bind, get, lift. by rewrite He.
Qed.

Lemma edit_additional_items_ownership_eval items entries w :
  py_map (ownership_entry (clock w)) items = Ok entries →
  edit_additional_items_ownership cookidoo_additional_item_from_json items w
  = api_call
      "Exception: Cannot execute edit additional items ownership:\n%s"
      "Edit additional items ownership failed due to connection timeout."
      "Exception: Cannot execute edit additional items ownership:\n%s"
      "Edit additional items ownership failed due to request exception."
      POST EDIT_OWNERSHIP_ADDITIONAL_ITEMS_PATH
      (JsonBody (JObj [("additionalItems", JArr entries)]))
      "Exception: Cannot parse request response:\n %s"
      "Exception: Cannot edit additional items ownership: %s"
      "Edit additional items ownership failed due to authorization failure, the authorization token is invalid or expired."
      (λ r, except_parse
              "Exception: Cannot get edited additional items:\n%s"
              "Loading edited additional items failed during parsing of request response."
              (j ← lift (response_json r);
               data ← lift (py_getitem j "data");
               l ← lift (py_iter data);
               lift (py_map cookidoo_additional_item_from_json l))) w.
Proof.
  intros He. unfold edit_additional_items_ownership.
  unfold mbind at 1 2, M_mbind, M_bind, get, lift. by rewrite He.
Qed.

Lemma edit_additional_items_eval items entries w :
  py_map rename_entry items = Ok entries →
  edit_additional_items cookidoo_additional_item_from_json items w
  = api_call
      "Exception: Cannot execute edit additional items:\n%s"
      "Edit additional items failed due to connection timeout."
      "Exception: Cannot execute edit additional items:\n%s"
      "Edit additional items failed due to request exception."
      POST EDIT_ADDITIONAL_ITEMS_PATH
      (JsonBody (JObj [("additionalItems", JArr entries)]))
      "Exception: Cannot parse request response:\n %s"
      "Exception: Cannot edit additional items: %s"
      "Edit additional items failed due to authorization failure, the authorization token is invalid or expired."
      (λ r, except_parse
              "Exception: Cannot get edited additional items:\n%s"
              "Loading edited additional items failed during parsing of request response."
              (j ← lift (response_json r);
               data ← lift (py_getitem j "data");
               l ← lift (py_iter data);
               lift (py_map cookidoo_additional_item_from_json l))) w.
Proof.
  intros He. unfold edit_additional_items.
  unfold mbind at 1, M_mbind, M_bind, lift. by rewrite He.
Qed.

Ltac unfold_method :=
  unfold get_user_info, get_active_subscription, get_recipe_details,
    get_shopping_list_recipes, get_ingredient_items,
    add_ingredient_items_for_recipes, remove_ingredient_items_for_recipes,
    get_additional_items, add_additional_items, remove_additional_items,
    clear_shopping_list;
  try rewrite api_call_no_parse.

(** C1: on a 401 response whose body decodes to an object without
    [error_description], every method raises the [KeyError] of the look-up
    made for the log line, and not [CookidooAuthException]. *)
Theorem unauthorized_without_description_raises_KeyError
    (w : World) (r : ClientResponse) (d : list (string * json))
    (id : string) (ids : list string) (items entries renames : list json) :
  answers w r →
  status r = 401 →
  body_json r = JsonValue (JObj d) →
  dict_get "error_description" d = None →
  py_map (ownership_entry (clock w)) items = Ok entries →
  py_map rename_entry items = Ok renames →
  (login py_str int_of_str w).1 = Raise (KeyError "error_description")
  ∧ (∀ held tok, _auth_data w = Some held →
       dict_get "refresh_token" held = Some tok →
       (refresh_token py_str int_of_str COOKIDOO_CLIENT_ID w).1
       = Raise (KeyError "error_description"))
  ∧ (get_user_info CookidooUserInfo_annotations w).1
    = Raise (KeyError "error_description")
  ∧ (get_active_subscription CookidooSubscription_annotations w).1
    = Raise (KeyError "error_description")
  ∧ (get_recipe_details cookidoo_recipe_details_from_json id w).1
    = Raise (KeyError "error_description")
  ∧ (get_shopping_list_recipes cookidoo_recipe_from_json w).1
    = Raise (KeyError "error_description")
  ∧ (get_ingredient_items cookidoo_ingredient_item_from_json w).1
    = Raise (KeyError "error_description")
  ∧ (add_ingredient_items_for_recipes cookidoo_ingredient_item_from_json ids w).1
    = Raise (KeyError "error_description")
  ∧ (remove_ingredient_items_for_recipes ids w).1
    = Raise (KeyError "error_description")
  ∧ (edit_ingredient_items_ownership cookidoo_ingredient_item_from_json items w).1
    = Raise (KeyError "error_description")
  ∧ (get_additional_items cookidoo_additional_item_from_json w).1
    = Raise (KeyError "error_description")
  ∧ (add_additional_items cookidoo_additional_item_from_json ids w).1
    = Raise (KeyError "error_description")
  ∧ (edit_additional_items cookidoo_additional_item_from_json items w).1
    = Raise (KeyError "error_description")
  ∧ (edit_additional_items_ownership cookidoo_additional_item_from_json items w).1
    = Raise (KeyError "error_description")
  ∧ (remove_additional_items ids w).1 = Raise (KeyError "error_description")
  ∧ (clear_shopping_list w).1 = Raise (KeyError "error_description").
Proof.
  intros Hs H401 Hj Hd He Hr.
  assert (Hget : py_getitem (JObj d) "error_description"
                 = Raise (KeyError "error_description")).
  { unfold py_getitem, dict_getitem. by rewrite Hd. }
  assert (Hgrant : ∀ fd, (_request_access_token py_str int_of_str fd w).1
                         = Raise (KeyError "error_description")).
  { intros fd. apply request_access_token_Raise.
    by apply (grant_response_unauthorized_missing fd w r (JObj d)). }
  split; [by rewrite login_unfold|].
  split.
  { intros held tok Hheld Htok. rewrite refresh_token_unfold, Hheld.
    unfold dict_getitem. rewrite Htok.
    destruct held; [done|]. apply Hgrant. }
  rewrite (edit_ingredient_items_ownership_eval items entries) by done.
  rewrite (edit_additional_items_ownership_eval items entries) by done.
  rewrite (edit_additional_items_eval items renames) by done.
  repeat split; unfold_method;
    by apply (api_call_unauthorized_missing _ _ _ _ _ _ _ _ _ _ _ w r (JObj d)).
Qed.

Lemma request_error_for_api_call {A} a b c d m u p s1 s2 s3
    (parse : ClientResponse → M A) w r :
  answers w r → 400 ≤ status r → status r ≠ 401 →
  request_error_for (status r) (api_call a b c d m u p s1 s2 s3 parse w).1.
Proof.
  intros Hs Hge Hne. eexists. by apply api_call_error_status.
Qed.

(** C2, as the code has it: a 400 from the token endpoint makes [login] and
    [refresh_token] raise [CookidooAuthException]; on every other method a
    status of 400 or above other than 401 (400 included) raises
    [CookidooRequestException], whose cause is the response error carrying
    that status. *)
Theorem error_status_classification
    (w : World) (r : ClientResponse)
    (id : string) (ids : list string) (items entries renames : list json) :
  answers w r →
  400 ≤ status r →
  status r ≠ 401 →
  py_map (ownership_entry (clock w)) items = Ok entries →
  py_map rename_entry items = Ok renames →
  (status r = 400 →
     auth_error (login py_str int_of_str w).1
     ∧ ∀ held tok, _auth_data w = Some held →
         dict_get "refresh_token" held = Some tok →
         auth_error (refresh_token py_str int_of_str COOKIDOO_CLIENT_ID w).1)
  ∧ request_error_for (status r)
      (get_user_info CookidooUserInfo_annotations w).1
  ∧ request_error_for (status r)
      (get_active_subscription CookidooSubscription_annotations w).1
  ∧ request_error_for (status r)
      (get_recipe_details cookidoo_recipe_details_from_json id w).1
  ∧ request_error_for (status r)
      (get_shopping_list_recipes cookidoo_recipe_from_json w).1
  ∧ request_error_for (status r)
      (get_ingredient_items cookidoo_ingredient_item_from_json w).1
  ∧ request_error_for (status r)
      (add_ingredient_items_for_recipes cookidoo_ingredient_item_from_json ids w).1
  ∧ request_error_for (status r) (remove_ingredient_items_for_recipes ids w).1
  ∧ request_error_for (status r)
      (edit_ingredient_items_ownership cookidoo_ingredient_item_from_json items w).1
  ∧ request_error_for (status r)
      (get_additional_items cookidoo_additional_item_from_json w).1
  ∧ request_error_for (status r)
      (add_additional_items cookidoo_additional_item_from_json ids w).1
  ∧ request_error_for (status r)
      (edit_additional_items cookidoo_additional_item_from_json items w).1
  ∧ request_error_for (status r)
      (edit_additional_items_ownership cookidoo_additional_item_from_json items w).1
  ∧ request_error_for (status r) (remove_additional_items ids w).1
  ∧ request_error_for (status r) (clear_shopping_list w).1.
Proof.
  intros Hs Hge Hne He Hr.
  split.
  { intros H400.
    assert (Hgrant : ∀ fd, auth_error (_request_access_token py_str int_of_str fd w).1).
    { intros fd.
      destruct (grant_response_bad_request fd w r Hs H400) as [msg Hmsg].
      exists msg. by apply request_access_token_Raise. }
    split; [rewrite login_unfold; apply Hgrant|].
    intros held tok Hheld Htok. rewrite refresh_token_unfold, Hheld.
    unfold dict_getitem. rewrite Htok.
    destruct held; [done|]. apply Hgrant. }
  rewrite (edit_ingredient_items_ownership_eval items entries) by done.
  rewrite (edit_additional_items_ownership_eval items entries) by done.
  rewrite (edit_additional_items_eval items renames) by done.
  repeat split; unfold_method; by apply request_error_for_api_call.
Qed.

(** ** Comprehensions *)

Lemma py_map_app {A B} (f : A → pyres B) l1 l2 :
  py_map f (l1 ++ l2)
  = (xs ← py_map f l1; ys ← py_map f l2; Ok (xs ++ ys)).
Proof.
  induction l1 as [|x l1 IH]; simpl.
  - by destruct (py_map f l2).
  - unfold mbind, pyres_mbind, pyres_bind in *.
    destruct (f x); [|done]. rewrite IH.
    destruct (py_map f l1); [|done]. by destruct (py_map f l2).
Qed.

Lemma py_map_Forall2 {A B} (f : A → pyres B) l ys :
  py_map f l = Ok ys ↔ Forall2 (λ x y, f x = Ok y) l ys.
Proof.
  revert ys. induction l as [|x l IH]; intros ys; simpl.
  - split; [intros [= <-]; constructor | by inversion 1].
  - unfold mbind, pyres_mbind, pyres_bind. split.
    + destruct (f x) as [y|] eqn:Hy; [|done].
      destruct (py_map f l) as [ys'|] eqn:Hys; [|done].
      intros [= <-]. constructor; [done | by apply IH].
    + inversion 1 as [|? y ? ys' Hy Hys]; subst.
      rewrite Hy. apply IH in Hys. by rewrite Hys.
Qed.

Lemma first_active_found pre s post a :
  Forall inactive pre →
  py_getitem s "active" = Ok a → truthy a = true →
  first_active (pre ++ s :: post) = Ok (Some s).
Proof.
  intros Hpre Ha Ht. induction Hpre as [|x pre (b & Hb & Hf) _ IH]; simpl.
  - unfold mbind, pyres_mbind, pyres_bind. by rewrite Ha, Ht.
  - unfold mbind, pyres_mbind, pyres_bind. by rewrite Hb, Hf.
Qed.

Lemma first_active_none l :
  Forall inactive l → first_active l = Ok None.
Proof.
  induction 1 as [|x l (b & Hb & Hf) _ IH]; simpl; [done|].
  unfold mbind, pyres_mbind, pyres_bind. by rewrite Hb, Hf.
Qed.

(** The two-level comprehension is the converter mapped over the groups of
    all recipes, laid end to end. *)
Lemma ingredient_items_of_concat recipes groups :
  Forall2 recipe_with_groups recipes groups →
  ingredient_items_of cookidoo_ingredient_item_from_json recipes
  = py_map cookidoo_ingredient_item_from_json (concat groups).
Proof.
  induction 1 as [|recipe gs recipes groups Hg _ IH]; simpl; [done|].
  unfold recipe_with_groups in Hg. rewrite py_map_app, Hg, IH.
  unfold mbind, pyres_mbind, pyres_bind. simpl. done.
Qed.

Lemma length_concat_uniform {A} (ls : list (list A)) g :
  Forall (λ l, length l = g) ls → length (concat ls) = (length ls * g)%nat.
Proof.
  induction 1 as [|l ls Hl _ IH]; simpl; [done|].
  rewrite length_app, IH, Hl. done.
Qed.

(** Moves a goal about an API method to the parse stage of its call. *)
Ltac to_parse_stage :=
  etrans; [eapply (f_equal fst), api_call_success; [eassumption | lia] |].

(** An element without [active] that the search reaches stops it with the
    [KeyError] of the look-up. *)
Lemma first_active_missing pre d post :
  Forall inactive pre →
  dict_get "active" d = None →
  first_active (pre ++ JObj d :: post) = Raise (KeyError "active").
Proof.
  intros Hpre Hd. induction Hpre as [|x pre (b & Hb & Hf) _ IH]; simpl.
  - unfold mbind, pyres_mbind, pyres_bind, dict_getitem. by rewrite Hd.
  - unfold mbind, pyres_mbind, pyres_bind. by rewrite Hb, Hf.
Qed.

(** C6, as the code has it: on a 2xx response whose body is an array,
    [get_active_subscription] goes through the elements in order, reading
    [active] of each.  It returns the projection of the first element whose
    [active] member is true when the elements before it have a false one;
    [None], not an error, when every element (or none at all) has a false
    one; and it raises [CookidooParseException] when it comes to an element
    without [active] before any active one. *)
Theorem get_active_subscription_first_active
    (w : World) (r : ClientResponse) (l : list json) :
  answers w r →
  200 ≤ status r < 300 →
  body_json r = JsonValue (JArr l) →
  (∀ pre d post a,
     l = pre ++ JObj d :: post →
     Forall inactive pre →
     dict_get "active" d = Some a → truthy a = true →
     (get_active_subscription CookidooSubscription_annotations w).1
     = Ok (Some (project CookidooSubscription_annotations d)))
  ∧ (Forall inactive l →
     (get_active_subscription CookidooSubscription_annotations w).1 = Ok None)
  ∧ (∀ pre d post,
     l = pre ++ JObj d :: post →
     Forall inactive pre →
     dict_get "active" d = None →
     (get_active_subscription CookidooSubscription_annotations w).1
     = Raise (CookidooParseException
                "Loading active subscription failed during parsing of request response."
                (KeyError "active"))).
Proof.
  intros Hs Hst Hj. unfold get_active_subscription.
  split; [intros pre d post a -> Hpre Ha Ht
         | split; [intros Hl | intros pre d post -> Hpre Hd]];
    to_parse_stage; unfold_M; unfold response_json, py_iter; rewrite Hj;
    cbv beta iota.
  - rewrite (first_active_found pre (JObj d) post a); try done.
    + by destruct d.
    + unfold py_getitem, dict_getitem. by rewrite Ha.
  - by rewrite first_active_none.
  - by rewrite first_active_missing.
Qed.


(** C7: on a 2xx response whose body lists recipes, each with its array of
    ingredient groups, [get_ingredient_items] returns the converted groups
    of all recipes in one list, recipe after recipe and group after group
    within a recipe: [r] recipes of [g] groups each give [r * g] items. *)
Theorem get_ingredient_items_flattens
    (w : World) (r : ClientResponse) (top : list (string * json))
    (recipes : list json) (groups : list (list json)) (items : list json) :
  answers w r →
  200 ≤ status r < 300 →
  body_json r = JsonValue (JObj top) →
  dict_get "recipes" top = Some (JArr recipes) →
  Forall2 recipe_with_groups recipes groups →
  py_map cookidoo_ingredient_item_from_json (concat groups) = Ok items →
  (get_ingredient_items cookidoo_ingredient_item_from_json w).1 = Ok items
  ∧ Forall2 (λ x y, cookidoo_ingredient_item_from_json x = Ok y)
            (concat groups) items
  ∧ ∀ g, Forall (λ gs, length gs = g) groups →
         length items = (length recipes * g)%nat.
Proof.
  intros Hs Hst Hj Hrec Hgroups Hitems.
  split; [|split].
  - unfold get_ingredient_items. to_parse_stage.
    unfold_M. unfold response_json, py_getitem, dict_getitem, py_iter.
    rewrite Hj. cbv beta iota. rewrite Hrec. cbv beta iota.
    by rewrite (ingredient_items_of_concat recipes groups), Hitems.
  - by apply py_map_Forall2.
  - intros g Hg. apply py_map_Forall2 in Hitems.
    rewrite <- (Forall2_length _ _ _ Hitems), (length_concat_uniform groups g Hg).
    by rewrite (Forall2_length _ _ _ Hgroups).
Qed.

(** C5, as the code has it: the projection keeps exactly the members whose
    key is declared, with their values; it checks no required field, so a
    declared key the object lacks is simply absent from the result.  On a
    response below 400, [get_user_info] returns the projection of the
    [userInfo] member and [login] the projection of the body (when it holds
    what the [auth_data] setter reads); [CookidooParseException] is raised
    when the body does not decode and, for [get_user_info], when [userInfo]
    is missing. *)
Theorem allowlist_projection
    (w : World) (r : ClientResponse) (d : list (string * json)) :
  answers w r →
  status r < 400 →
  (∀ ann k, dict_get k (project ann d)
            = if decide (k ∈ ann) then dict_get k d else None)
  ∧ (∀ ann k v, (k, v) ∈ project ann d ↔ k ∈ ann ∧ (k, v) ∈ d)
  ∧ (∀ top, body_json r = JsonValue (JObj top) →
       dict_get "userInfo" top = Some (JObj d) →
       (get_user_info CookidooUserInfo_annotations w).1
       = Ok (project CookidooUserInfo_annotations d))
  ∧ (∀ tt at_ v n,
       body_json r = JsonValue (JObj d) →
       dict_get "token_type" d = Some (JStr tt) →
       dict_get "access_token" d = Some at_ →
       dict_get "expires_in" d = Some v →
       py_int int_of_str v = Ok n →
       (login py_str int_of_str w).1
       = Ok (project CookidooAuthResponse_annotations d))
  ∧ (body_json r = JsonDecodeFailure →
       parse_error (get_user_info CookidooUserInfo_annotations w).1
       ∧ parse_error (login py_str int_of_str w).1)
  ∧ (∀ top, body_json r = JsonValue (JObj top) →
       dict_get "userInfo" top = None →
       parse_error (get_user_info CookidooUserInfo_annotations w).1).
Proof.
  clear cookidoo_recipe_from_json cookidoo_recipe_details_from_json
    cookidoo_ingredient_item_from_json cookidoo_additional_item_from_json.
  intros Hs Hlt.
  split; [intros; apply dict_get_project|].
  split; [intros; apply project_keys|].
  split; [|split; [|split]].
  - intros top Hj Hu. unfold get_user_info. to_parse_stage.
    unfold_M. unfold response_json, py_getitem, dict_getitem, py_items.
    rewrite Hj. cbv beta iota. by rewrite Hu.
  - intros tt at_ v n Hj Htt Hat Hv Hn. rewrite login_unfold.
    erewrite request_access_token_success; try done.
    + rewrite dict_get_project, decide_True; [done | apply auth_response_declares; tauto].
    + rewrite dict_get_project, decide_True; [done | apply auth_response_declares; tauto].
    + rewrite dict_get_project, decide_True; [done | apply auth_response_declares; tauto].
  - intros Hj. split.
    + unfold get_user_info. eexists _, _. to_parse_stage.
      unfold_M. unfold response_json. by rewrite Hj.
    + rewrite login_unfold.
      destruct (grant_response_undecodable
                  [("grant_type", JStr "password");
                   ("username", JStr (email (_cfg w)));
                   ("password", JStr (password (_cfg w)))] w r Hs Hlt Hj)
        as (msg & cause & Hraise).
      exists msg, cause. by apply request_access_token_Raise.
  - intros top Hj Hu. unfold get_user_info. eexists _, _. to_parse_stage.
    unfold_M. unfold response_json, py_getitem, dict_getitem.
    rewrite Hj. cbv beta iota. by rewrite Hu.
Qed.

(** C9: a 2xx response other than 200 from the token endpoint is accepted as
    a grant, and its body is in the debug log. *)
Theorem token_body_logged_on_accepted_grant
    (w : World) (r : ClientResponse) (d : list (string * json))
    tt at_ v n :
  answers w r →
  200 < status r < 300 →
  body_json r = JsonValue (JObj d) →
  dict_get "token_type" d = Some (JStr tt) →
  dict_get "access_token" d = Some at_ →
  dict_get "expires_in" d = Some v →
  py_int int_of_str v = Ok n →
  (login py_str int_of_str w).1 = Ok (project CookidooAuthResponse_annotations d)
  ∧ _auth_data (login py_str int_of_str w).2
    = Some (project CookidooAuthResponse_annotations d)
  ∧ LogDebug "Response from %s [%s]: %s"
      [ArgUrl TOKEN_ENDPOINT; ArgStatus (status r); ArgText (text r)]
    ∈ log (login py_str int_of_str w).2.
Proof.
  clear cookidoo_recipe_from_json cookidoo_recipe_details_from_json
    cookidoo_ingredient_item_from_json cookidoo_additional_item_from_json.
  intros Hs Hst Hj Htt Hat Hv Hn. rewrite login_unfold.
  erewrite request_access_token_success; try done; try lia.
  - split; [done|]. split; [done|]. simpl.
    rewrite decide_True by lia. apply elem_of_snoc.
  - rewrite dict_get_project, decide_True; [done | apply auth_response_declares; tauto].
  - rewrite dict_get_project, decide_True; [done | apply auth_response_declares; tauto].
  - rewrite dict_get_project, decide_True; [done | apply auth_response_declares; tauto].
Qed.

(** On 200 the response line of the log carries no body. *)
Lemma token_body_not_logged_on_200 fd w r :
  answers w r → status r = 200 →
  ∃ rest,
    log (grant_response fd w).2
    = log w ++ LogDebug "Response from %s [%s]: %s"
                 [ArgUrl TOKEN_ENDPOINT; ArgStatus 200; ArgText EmptyString]
               :: rest.
Proof.
  intros Hs H200. unfold_M.
  unfold raise_for_status, response_json, HTTPStatus_UNAUTHORIZED,
    HTTPStatus_BAD_REQUEST.
  rewrite Hs, H200.
  destruct (body_json r) as [j| |]; simpl; [| eexists; by rewrite <- app_assoc ..].
  - destruct j; simpl; by eexists.
Qed.

(** ** What every API method does and leaves alone *)

Ltac frame :=
  repeat first
    [ apply preserves_ret | apply preserves_lift | apply preserves_raise
    | apply preserves_get
    | apply preserves_debug; apply _
    | apply preserves_unauthorized; apply _
    | apply preserves_session_request; apply _
    | apply preserves_except_transport; [apply _|]
    | apply preserves_except_parse; [apply _|]
    | apply preserves_bind; [|intros ?]
    | case_match ].

Ltac unfold_edit :=
  unfold edit_ingredient_items_ownership, edit_additional_items,
    edit_additional_items_ownership.

(** The API methods read the session state and never write it: whatever
    the session answers and however the call ends, the held auth data, the
    API headers and the stored expiry are what they were. *)
Theorem api_methods_keep_session_state
    (id : string) (ids : list string) (items : list json) :
  every_api_method CookidooUserInfo_annotations CookidooSubscription_annotations
    cookidoo_recipe_details_from_json cookidoo_recipe_from_json
    cookidoo_ingredient_item_from_json cookidoo_additional_item_from_json
    id ids items
    (λ A m, ∀ w, _auth_data (m w).2 = _auth_data w
                 ∧ _api_headers (m w).2 = _api_headers w
                 ∧ __expires_in (m w).2 = __expires_in w).
Proof.
  assert (Hstate : ∀ A (m : M A), preserves session_state m →
            ∀ w, _auth_data (m w).2 = _auth_data w
                 ∧ _api_headers (m w).2 = _api_headers w
                 ∧ __expires_in (m w).2 = __expires_in w).
  { intros A m Hm w. specialize (Hm w). unfold session_state in Hm.
    by simplify_eq. }
  unfold every_api_method.
  repeat split; apply Hstate; unfold_method; unfold_edit; frame.
Qed.


Lemma api_call_transport {A} a b c d m u p s1 s2 s3
    (parse : ClientResponse → M A) w o cause :
  (∀ q, _session w q = o) → transport_failure o cause →
  request_error_from cause (api_call a b c d m u p s1 s2 s3 parse w).1.
Proof.
  intros Hs Ho. unfold_M. rewrite Hs.
  destruct o as [|k|r]; simpl in Ho; [subst cause; by eexists..|done].
Qed.

Lemma grant_response_transport fd w o cause :
  (∀ q, _session w q = o) → transport_failure o cause →
  request_error_from cause (grant_response fd w).1.
Proof.
  intros Hs Ho. unfold_M. rewrite Hs.
  destruct o as [|k|r]; simpl in Ho; [subst cause; by eexists..|done].
Qed.

(** When the session raises instead of answering (a timeout, a connection
    error), every method raises [CookidooRequestException] with that
    exception as its cause. *)
Theorem transport_failure_is_request_error
    (w : World) (o : outcome) (cause : exn)
    (id : string) (ids : list string) (items entries renames : list json) :
  (∀ q, _session w q = o) →
  transport_failure o cause →
  py_map (ownership_entry (clock w)) items = Ok entries →
  py_map rename_entry items = Ok renames →
  request_error_from cause (login py_str int_of_str w).1
  ∧ (∀ held tok, _auth_data w = Some held →
       dict_get "refresh_token" held = Some tok →
       request_error_from cause
         (refresh_token py_str int_of_str COOKIDOO_CLIENT_ID w).1)
  ∧ every_api_method CookidooUserInfo_annotations CookidooSubscription_annotations
      cookidoo_recipe_details_from_json cookidoo_recipe_from_json
      cookidoo_ingredient_item_from_json cookidoo_additional_item_from_json
      id ids items
      (λ A m, request_error_from cause (m w).1).
Proof.
  intros Hs Ho He Hr.
  assert (Hgrant : ∀ fd, request_error_from cause
                           (_request_access_token py_str int_of_str fd w).1).
  { intros fd.
    destruct (grant_response_transport fd w o cause Hs Ho) as [msg Hmsg].
    exists msg. by apply request_access_token_Raise. }
  split; [rewrite login_unfold; apply Hgrant|].
  split.
  { intros held tok Hheld Htok. rewrite refresh_token_unfold, Hheld.
    unfold dict_getitem. rewrite Htok.
    destruct held; [done|]. apply Hgrant. }
  unfold every_api_method.
  rewrite (edit_ingredient_items_ownership_eval items entries) by done.
  rewrite (edit_additional_items_ownership_eval items entries) by done.
  rewrite (edit_additional_items_eval items renames) by done.
  repeat split; unfold_method; by eapply api_call_transport.
Qed.

(** A 401 whose body does not decode, or decodes to an object with
    [error_description], makes every method raise
    [CookidooAuthException]. *)
Theorem unauthorized_is_auth_error
    (w : World) (r : ClientResponse)
    (id : string) (ids : list string) (items entries renames : list json) :
  answers w r →
  plain_unauthorized r →
  py_map (ownership_entry (clock w)) items = Ok entries →
  py_map rename_entry items = Ok renames →
  auth_error (login py_str int_of_str w).1
  ∧ (∀ held tok, _auth_data w = Some held →
       dict_get "refresh_token" held = Some tok →
       auth_error (refresh_token py_str int_of_str COOKIDOO_CLIENT_ID w).1)
  ∧ every_api_method CookidooUserInfo_annotations CookidooSubscription_annotations
      cookidoo_recipe_details_from_json cookidoo_recipe_from_json
      cookidoo_ingredient_item_from_json cookidoo_additional_item_from_json
      id ids items
      (λ A m, auth_error (m w).1).
Proof.
  intros Hs [H401 Hbody] He Hr.
  assert (Hgrant : ∀ fd, auth_error (_request_access_token py_str int_of_str fd w).1).
  { intros fd.
    destruct (grant_response_unauthorized fd w r Hs H401 Hbody) as [msg Hmsg].
    exists msg. by apply request_access_token_Raise. }
  split; [rewrite login_unfold; apply Hgrant|].
  split.
  { intros held tok Hheld Htok. rewrite refresh_token_unfold, Hheld.
    unfold dict_getitem. rewrite Htok.
    destruct held; [done|]. apply Hgrant. }
  unfold every_api_method.
  rewrite (edit_ingredient_items_ownership_eval items entries) by done.
  rewrite (edit_additional_items_ownership_eval items entries) by done.
  rewrite (edit_additional_items_eval items renames) by done.
  repeat split; unfold_method; eexists;
    by apply (api_call_unauthorized _ _ _ _ _ _ _ _ _ _ _ w r).
Qed.

Lemma bind_blind {A B C} (proj : World → C) (m : M A) (f : A → M B) w :
  (∀ a, preserves proj (f a)) →
  proj ((m ≫= f) w).2 = proj (m w).2.
Proof.
  intros Hf. unfold mbind, M_mbind, M_bind.
  destruct (m w) as [[a|e] w1]; simpl; [apply Hf | done].
Qed.

Lemma preserves_auth_data_setter_wire d :
  preserves wire (auth_data_setter py_str int_of_str d).
Proof.
  unfold auth_data_setter, expires_in_setter.
  repeat (apply preserves_bind; [|intros ?]);
    first [apply preserves_lift | apply preserves_get | by intros w].
Qed.

Lemma request_access_token_wire fd w :
  wire (_request_access_token py_str int_of_str fd w).2
  = wire w ++ [mkRequest POST TOKEN_ENDPOINT (_token_headers w) (FormData fd)].
Proof.
  rewrite request_access_token_unfold. rewrite bind_blind.
  - unfold grant_response. rewrite (except_transport_blind wire).
    apply session_request_bind_wire. intros r.
    apply preserves_bind; [apply preserves_debug; apply _ | intros _].
    apply preserves_bind; [apply preserves_unauthorized; apply _ | intros _].
    apply preserves_bind.
    { case_decide; [apply preserves_log_then_raise; apply _ | apply preserves_ret]. }
    intros _. apply preserves_bind; [apply preserves_lift | intros _].
    apply preserves_try_except; [frame|].
    intros e h He. destruct e; simplify_eq.
    apply preserves_log_then_raise; apply _.
  - intros data. apply preserves_bind; [apply preserves_auth_data_setter_wire|].
    intros ?. apply preserves_ret.
Qed.

Lemma api_call_one_request {A} a b c d m u p s1 s2 s3
    (parse : ClientResponse → M A) w :
  (∀ r, preserves wire (parse r)) →
  ∃ q, wire (api_call a b c d m u p s1 s2 s3 parse w).2 = wire w ++ [q]
       ∧ req_headers q = _api_headers w.
Proof. intros Hp. eexists. split; [by apply api_call_wire | done]. Qed.

(** Every method that gets to its call sends exactly one request, however
    the call ends: a grant posts its form to the token endpoint with the
    token headers, an API method sends with the API headers held when it is
    called.  Nothing is retried. *)
Theorem one_request_per_call
    (w : World)
    (id : string) (ids : list string) (items entries renames : list json) :
  py_map (ownership_entry (clock w)) items = Ok entries →
  py_map rename_entry items = Ok renames →
  wire (login py_str int_of_str w).2
  = wire w ++ [mkRequest POST TOKEN_ENDPOINT (_token_headers w)
                 (FormData [("grant_type", JStr "password");
                            ("username", JStr (email (_cfg w)));
                            ("password", JStr (password (_cfg w)))])]
  ∧ (∀ held tok, _auth_data w = Some held →
       dict_get "refresh_token" held = Some tok →
       wire (refresh_token py_str int_of_str COOKIDOO_CLIENT_ID w).2
       = wire w ++ [mkRequest POST TOKEN_ENDPOINT (_token_headers w)
                      (FormData [("grant_type", JStr "refresh_token");
                                 ("refresh_token", tok);
                                 ("client_id", JStr COOKIDOO_CLIENT_ID)])])
  ∧ every_api_method CookidooUserInfo_annotations CookidooSubscription_annotations
      cookidoo_recipe_details_from_json cookidoo_recipe_from_json
      cookidoo_ingredient_item_from_json cookidoo_additional_item_from_json
      id ids items
      (λ A m, ∃ q, wire (m w).2 = wire w ++ [q]
                   ∧ req_headers q = _api_headers w).
Proof.
  intros He Hr.
  split; [rewrite login_unfold; apply request_access_token_wire|].
  split.
  { intros held tok Hheld Htok. rewrite refresh_token_unfold, Hheld.
    unfold dict_getitem. rewrite Htok.
    destruct held; [done|]. apply request_access_token_wire. }
  unfold every_api_method.
  rewrite (edit_ingredient_items_ownership_eval items entries) by done.
  rewrite (edit_additional_items_ownership_eval items entries) by done.
  rewrite (edit_additional_items_eval items renames) by done.
  repeat split; unfold_method; apply api_call_one_request; intros r0; frame.
Qed.


(** ** The session state across calls *)

Lemma in_sync_of_state w w' :
  session_state w' = session_state w → in_sync py_str w → in_sync py_str w'.
Proof.
  unfold session_state, in_sync. intros [= -> -> _]. done.
Qed.

(** However the setter ends, the header and the held data agree after it:
    both are replaced together, before [expires_in] is looked at. *)
Lemma in_sync_auth_data_setter d w :
  in_sync py_str w → in_sync py_str (auth_data_setter py_str int_of_str d w).2.
Proof.
  intros Hw.
  unfold auth_data_setter, expires_in_setter, dict_getitem, py_lower. unfold_M.
  destruct (dict_get "token_type" d) as [[| | |ty| |]|] eqn:Hty; try done.
  destruct (dict_get "access_token" d) as [at_|] eqn:Hat; [|done].
  assert (Hh : header_of py_str d
               = Some (AUTHORIZATION_HEADER_format (str_capitalize (str_lower ty))
                         (format_field py_str at_))).
  { unfold header_of. by rewrite Hty, Hat. }
  destruct (dict_get "expires_in" d) as [v|]; simpl.
  - destruct (py_int int_of_str v); simpl;
      (unfold in_sync; simpl; rewrite Hh; split; [done | apply lookup_insert_eq]).
  - unfold in_sync; simpl. rewrite Hh. split; [done | apply lookup_insert_eq].
Qed.

Lemma in_sync_request_access_token fd w :
  in_sync py_str w →
  in_sync py_str (_request_access_token py_str int_of_str fd w).2.
Proof.
  intros Hw. rewrite request_access_token_unfold.
  pose proof (preserves_grant_response session_state fd w) as Hss.
  unfold mbind, M_mbind, M_bind.
  destruct (grant_response fd w) as [[data|e] w1]; simpl in *.
  - pose proof (in_sync_auth_data_setter data w1 (in_sync_of_state _ _ Hss Hw)) as Hset.
    by destruct (auth_data_setter py_str int_of_str data w1) as [[[]|e] w2].
  - by apply (in_sync_of_state w).
Qed.

(** Held auth data and the [AUTHORIZATION] header always agree: a new client
    holds no auth data, and no method, however it ends, leaves auth data
    behind whose token type and access token do not give the header in
    place. *)
Theorem header_in_sync_with_auth_data
    (w : World) (id : string) (ids : list string) (items : list json) :
  in_sync py_str w →
  (∀ th ah session cfg now, in_sync py_str (__init__ th ah session cfg now))
  ∧ in_sync py_str (login py_str int_of_str w).2
  ∧ in_sync py_str (refresh_token py_str int_of_str COOKIDOO_CLIENT_ID w).2
  ∧ every_api_method CookidooUserInfo_annotations CookidooSubscription_annotations
      cookidoo_recipe_details_from_json cookidoo_recipe_from_json
      cookidoo_ingredient_item_from_json cookidoo_additional_item_from_json
      id ids items
      (λ A m, in_sync py_str (m w).2).
Proof.
  intros Hw. split; [done|].
  split; [rewrite login_unfold; by apply in_sync_request_access_token|].
  split.
  { rewrite refresh_token_unfold.
    destruct (_auth_data w) as [d|] eqn:Hd; [|done].
    destruct (truthy (JObj d)); [|done].
    destruct (dict_getitem d "refresh_token"); [|done].
    by apply in_sync_request_access_token. }
  assert (Hstate : ∀ A (m : M A), preserves session_state m → in_sync py_str (m w).2).
  { intros A m Hm. by apply (in_sync_of_state w). }
  unfold every_api_method.
  repeat split; apply Hstate; unfold_method; unfold_edit; frame.
Qed.

(** After a grant that returned [data], the [auth_data] property reads
    [data] back, and a following [refresh_token] posts the refresh token of
    [data] with the client id; when [data] has no refresh token it raises
    [KeyError] before anything is sent. *)
Theorem refresh_token_uses_granted_data
    (w : World) (data : list (string * json)) (w1 : World) :
  login py_str int_of_str w = (Ok data, w1)
  ∨ refresh_token py_str int_of_str COOKIDOO_CLIENT_ID w = (Ok data, w1) →
  auth_data w1 = (Ok (Some data), w1)
  ∧ (∀ tok, dict_get "refresh_token" data = Some tok →
       wire (refresh_token py_str int_of_str COOKIDOO_CLIENT_ID w1).2
       = wire w1 ++ [mkRequest POST TOKEN_ENDPOINT (_token_headers w1)
                       (FormData [("grant_type", JStr "refresh_token");
                                  ("refresh_token", tok);
                                  ("client_id", JStr COOKIDOO_CLIENT_ID)])])
  ∧ (dict_get "refresh_token" data = None →
       refresh_token py_str int_of_str COOKIDOO_CLIENT_ID w1
       = (Raise (KeyError "refresh_token"), w1)).
Proof.
  intros Hgrant.
  apply grant_Ok_inv in Hgrant as [fd Hgrant].
  apply request_access_token_Ok_inv in Hgrant
    as (r & d & ty & at_ & v & n & _ & _ & _ & _ & Hty & _ & _ & _ & _ & Hheld & _).
  assert (Htruthy : truthy (JObj data) = true).
  { destruct data; [done|]. done. }
  split; [|split].
  - unfold auth_data. by rewrite Hheld, Htruthy.
  - intros tok Htok. rewrite refresh_token_unfold, Hheld, Htruthy.
    unfold dict_getitem. rewrite Htok. apply request_access_token_wire.
  - intros Htok. rewrite refresh_token_unfold, Hheld, Htruthy.
    unfold dict_getitem. by rewrite Htok.
Qed.

(** A token body accepted by the [try] statement but without [expires_in]
    makes the grant raise [KeyError], after the held auth data and the
    header have been replaced; the stored expiry stays as it was. *)
Theorem grant_without_expires_in
    (w : World) (r : ClientResponse) (d : list (string * json))
    (ty : string) (at_ : json) :
  answers w r →
  status r < 400 →
  body_json r = JsonValue (JObj d) →
  dict_get "token_type" d = Some (JStr ty) →
  dict_get "access_token" d = Some at_ →
  dict_get "expires_in" d = None →
  (login py_str int_of_str w).1 = Raise (KeyError "expires_in")
  ∧ _auth_data (login py_str int_of_str w).2
    = Some (project CookidooAuthResponse_annotations d)
  ∧ _api_headers (login py_str int_of_str w).2 !! "AUTHORIZATION"
    = Some (str_capitalize (str_lower ty) +:+ " " +:+ format_field py_str at_)
  ∧ __expires_in (login py_str int_of_str w).2 = __expires_in w.
Proof.
  clear COOKIDOO_CLIENT_ID cookidoo_recipe_from_json
    cookidoo_recipe_details_from_json cookidoo_ingredient_item_from_json
    cookidoo_additional_item_from_json.
  intros Hs Hlt Hj Hty Hat Hexp. rewrite login_unfold.
  rewrite request_access_token_unfold.
  erewrite bind_Ok_eval by (by apply grant_response_success).
  unfold auth_data_setter, expires_in_setter, dict_getitem, py_lower. unfold_M.
  rewrite !dict_get_project.
  rewrite !decide_True by (apply auth_response_declares; tauto).
  rewrite Hty, Hat, Hexp. simpl.
  repeat split. apply lookup_insert_eq.
Qed.


(** ** The parse stage *)

(** The three methods without a result accept every response below 400
    and never decode its body: they return [None] whatever [r.json()] would
    give, and all they have done is send their one request and log the
    response line, with the body text. *)
Theorem removals_accept_any_body
    (w : World) (r : ClientResponse) (ids : list string) :
  answers w r →
  status r < 400 →
  remove_ingredient_items_for_recipes ids w
  = (Ok (),
     responded (mkRequest POST REMOVE_INGREDIENT_ITEMS_FOR_RECIPES_PATH
                  (_api_headers w)
                  (JsonBody (JObj [("recipeIDs", JArr (JStr <$> ids))]))) r w)
  ∧ remove_additional_items ids w
    = (Ok (),
       responded (mkRequest POST REMOVE_ADDITIONAL_ITEMS_PATH
                    (_api_headers w)
                    (JsonBody (JObj [("additionalItemIDs", JArr (JStr <$> ids))]))) r w)
  ∧ clear_shopping_list w
    = (Ok (),
       responded (mkRequest DELETE INGREDIENT_ITEMS_PATH (_api_headers w) NoBody) r w).
Proof.
  intros Hs Hlt.
  repeat split; unfold_method; by rewrite (api_call_success _ _ _ _ _ _ _ _ _ _ _ w r).
Qed.

(** On an accepted response whose body [r.json()] cannot give, the methods
    that read it fail by the kind of that failure: [CookidooParseException]
    for a body that is no JSON, [CookidooRequestException] for a content
    type that is not JSON (a [ClientError] of aiohttp). *)
Theorem undecodable_body_classification
    (w : World) (r : ClientResponse)
    (id : string) (ids : list string) (items entries renames : list json) :
  answers w r →
  status r < 400 →
  py_map (ownership_entry (clock w)) items = Ok entries →
  py_map rename_entry items = Ok renames →
  (body_json r = JsonDecodeFailure →
     parse_error (login py_str int_of_str w).1
     ∧ every_parsing_method CookidooUserInfo_annotations
         CookidooSubscription_annotations
         cookidoo_recipe_details_from_json cookidoo_recipe_from_json
         cookidoo_ingredient_item_from_json cookidoo_additional_item_from_json
         id ids items
         (λ A m, parse_error (m w).1))
  ∧ (body_json r = JsonContentTypeFailure →
     request_error_from (ClientError ContentTypeError)
       (login py_str int_of_str w).1
     ∧ every_parsing_method CookidooUserInfo_annotations
         CookidooSubscription_annotations
         cookidoo_recipe_details_from_json cookidoo_recipe_from_json
         cookidoo_ingredient_item_from_json cookidoo_additional_item_from_json
         id ids items
         (λ A m, request_error_from (ClientError ContentTypeError) (m w).1)).
Proof.
  clear COOKIDOO_CLIENT_ID.
  intros Hs Hlt He Hr.
  unfold every_parsing_method.
  rewrite (edit_ingredient_items_ownership_eval items entries) by done.
  rewrite (edit_additional_items_ownership_eval items entries) by done.
  rewrite (edit_additional_items_eval items renames) by done.
  split; intros Hj.
  - split.
    { rewrite login_unfold.
      destruct (grant_response_undecodable
                  [("grant_type", JStr "password");
                   ("username", JStr (email (_cfg w)));
                   ("password", JStr (password (_cfg w)))] w r Hs Hlt Hj)
        as (msg & cause & Hraise).
      exists msg, cause. by apply request_access_token_Raise. }
    repeat split; unfold_method; eexists _, _; to_parse_stage;
      unfold_M; unfold response_json; by rewrite Hj.
  - split.
    { rewrite login_unfold. eexists. apply request_access_token_Raise.
      unfold_M.
      unfold raise_for_status, response_json, HTTPStatus_UNAUTHORIZED,
        HTTPStatus_BAD_REQUEST.
      rewrite Hs. rewrite (decide_False (P := status r = 401)) by lia.
      rewrite (decide_False (P := status r = 400)) by lia.
      rewrite (decide_False (P := 400 ≤ status r)) by lia.
      by rewrite Hj. }
    repeat split; unfold_method; eexists; to_parse_stage;
      unfold_M; unfold response_json; by rewrite Hj.
Qed.

(** A token body that is JSON but no object makes the grant raise
    [AttributeError] (it has no [items]), the session state untouched. *)
Theorem grant_on_non_object_body
    (w : World) (r : ClientResponse) (j : json) :
  answers w r →
  status r < 400 →
  body_json r = JsonValue j →
  (∀ d, j ≠ JObj d) →
  (login py_str int_of_str w).1 = Raise AttributeError
  ∧ session_state (login py_str int_of_str w).2 = session_state w.
Proof.
  clear COOKIDOO_CLIENT_ID.
  intros Hs Hlt Hj Hobj. rewrite login_unfold.
  set (fd := [("grant_type", JStr "password");
              ("username", JStr (email (_cfg w)));
              ("password", JStr (password (_cfg w)))]).
  assert (Hg : (grant_response fd w).1 = Raise AttributeError).
  { unfold_M.
    unfold raise_for_status, response_json, py_items, HTTPStatus_UNAUTHORIZED,
      HTTPStatus_BAD_REQUEST.
    rewrite Hs. rewrite (decide_False (P := status r = 401)) by lia.
    rewrite (decide_False (P := status r = 400)) by lia.
    rewrite (decide_False (P := 400 ≤ status r)) by lia.
    rewrite Hj. destruct j; try done. by destruct (Hobj members). }
  split; [by apply request_access_token_Raise|].
  rewrite request_access_token_unfold.
  pose proof (preserves_grant_response session_state fd w) as Hss.
  unfold mbind, M_mbind, M_bind.
  destruct (grant_response fd w) as [[data|e] w1]; simpl in *; [done|].
  exact Hss.
Qed.

(** An element without [active] that comes before any active subscription
    makes [get_active_subscription] raise [CookidooParseException]. *)
Theorem subscription_without_active_is_parse_error
    (w : World) (r : ClientResponse)
    (pre : list json) (d : list (string * json)) (post : list json) :
  answers w r →
  status r < 400 →
  body_json r = JsonValue (JArr (pre ++ JObj d :: post)) →
  Forall inactive pre →
  dict_get "active" d = None →
  parse_error (get_active_subscription CookidooSubscription_annotations w).1.
Proof.
  intros Hs Hlt Hj Hpre Hd. unfold get_active_subscription.
  eexists _, _. to_parse_stage.
  unfold_M. unfold response_json, py_iter. rewrite Hj. cbv beta iota.
  assert (Hfirst : first_active (pre ++ JObj d :: post) = Raise (KeyError "active")).
  { clear -Hpre Hd. induction Hpre as [|x pre (b & Hb & Hf) _ IH]; simpl.
    - unfold mbind, pyres_mbind, pyres_bind, dict_getitem. by rewrite Hd.
    - unfold mbind, pyres_mbind, pyres_bind. by rewrite Hb, Hf. }
  by rewrite Hfirst.
Qed.


(** ** Lists of items *)

Lemma py_map_length {A B} (f : A → pyres B) l ys :
  py_map f l = Ok ys → length ys = length l.
Proof.
  intros H%py_map_Forall2. symmetry. by eapply Forall2_length.
Qed.


(** [add_ingredient_items_for_recipes] answers with the ingredient groups of
    the recipes under [data], flattened like those of
    [get_ingredient_items]; its request carries the recipe ids. *)
Theorem add_ingredient_items_flattens_data
    (w : World) (r : ClientResponse) (ids : list string)
    (top : list (string * json)) (recipes : list json)
    (groups : list (list json)) (result : list json) :
  answers w r →
  status r < 400 →
  body_json r = JsonValue (JObj top) →
  dict_get "data" top = Some (JArr recipes) →
  Forall2 recipe_with_groups recipes groups →
  py_map cookidoo_ingredient_item_from_json (concat groups) = Ok result →
  (add_ingredient_items_for_recipes cookidoo_ingredient_item_from_json ids w).1
  = Ok result
  ∧ length result = length (concat groups)
  ∧ wire (add_ingredient_items_for_recipes
            cookidoo_ingredient_item_from_json ids w).2
    = wire w ++ [mkRequest POST ADD_INGREDIENT_ITEMS_FOR_RECIPES_PATH
                   (_api_headers w)
                   (JsonBody (JObj [("recipeIDs", JArr (JStr <$> ids))]))].
Proof.
  intros Hs Hlt Hj Hdata Hgroups Hres. split; [|split].
  - unfold add_ingredient_items_for_recipes. to_parse_stage.
    unfold_M. unfold response_json, py_getitem, dict_getitem, py_iter.
    rewrite Hj. cbv beta iota. rewrite Hdata. cbv beta iota.
    by rewrite (ingredient_items_of_concat recipes groups), Hres.
  - by eapply py_map_length.
  - unfold add_ingredient_items_for_recipes. apply api_call_wire.
    intros r0. frame.
Qed.

(** [edit_ingredient_items_ownership] sends one entry per item (its id, its
    [is_owned] as [isOwned], the clock as [ownedTimestamp]) and answers with
    the converted elements of [data] themselves, one for one: unlike the
    other two ingredient methods it does not descend into ingredient
    groups. *)
Theorem edit_ingredient_items_ownership_maps_data
    (w : World) (r : ClientResponse) (items entries : list json)
    (top : list (string * json)) (data result : list json) :
  answers w r →
  status r < 400 →
  py_map (ownership_entry (clock w)) items = Ok entries →
  body_json r = JsonValue (JObj top) →
  dict_get "data" top = Some (JArr data) →
  py_map cookidoo_ingredient_item_from_json data = Ok result →
  (edit_ingredient_items_ownership cookidoo_ingredient_item_from_json items w).1
  = Ok result
  ∧ length result = length data
  ∧ length entries = length items
  ∧ wire (edit_ingredient_items_ownership
            cookidoo_ingredient_item_from_json items w).2
    = wire w ++ [mkRequest POST EDIT_OWNERSHIP_INGREDIENT_ITEMS_PATH
                   (_api_headers w)
                   (JsonBody (JObj [("ingredients", JArr entries)]))].
Proof.
  intros Hs Hlt He Hj Hdata Hres.
  rewrite (edit_ingredient_items_ownership_eval items entries) by done.
  split; [|split; [|split]].
  - to_parse_stage.
    unfold_M. unfold response_json, py_getitem, dict_getitem, py_iter.
    rewrite Hj. cbv beta iota. rewrite Hdata. cbv beta iota. by rewrite Hres.
  - by eapply py_map_length.
  - by eapply py_map_length.
  - apply api_call_wire. intros r0. frame.
Qed.



(** The projection keeps the order of the members it keeps, and projecting
    a projected dict again changes nothing. *)
Theorem project_idempotent (annotations : list string) (d : list (string * json)) :
  project annotations (project annotations d) = project annotations d
  ∧ project annotations d `sublist_of` d
  ∧ (NoDup d.*1 → NoDup (project annotations d).*1).
Proof.
  unfold project. split; [|split].
  - induction d as [|[k v] d IH]; [done|].
    rewrite filter_cons. simpl. case_decide; [|done].
    rewrite filter_cons. simpl. rewrite decide_True by done. by rewrite IH.
  - apply sublist_filter.
  - intros Hnd. eapply sublist_NoDup; [exact Hnd|].
    apply fmap_sublist, sublist_filter.
Qed.


(** A grant on a 200 logs one record, the response line with the body left
    out: the tokens do not reach the log. *)
Theorem token_body_not_logged_on_200_grant
    (w : World) (r : ClientResponse) (d : list (string * json))
    (ty : string) (at_ v : json) (n : Z) :
  answers w r →
  status r = 200 →
  body_json r = JsonValue (JObj d) →
  dict_get "token_type" d = Some (JStr ty) →
  dict_get "access_token" d = Some at_ →
  dict_get "expires_in" d = Some v →
  py_int int_of_str v = Ok n →
  log (login py_str int_of_str w).2
  = log w ++ [LogDebug "Response from %s [%s]: %s"
                [ArgUrl TOKEN_ENDPOINT; ArgStatus 200; ArgText EmptyString]].
Proof.
  clear COOKIDOO_CLIENT_ID cookidoo_recipe_from_json
    cookidoo_recipe_details_from_json cookidoo_ingredient_item_from_json
    cookidoo_additional_item_from_json.
  intros Hs H200 Hj Hty Hat Hv Hn. rewrite login_unfold.
  erewrite request_access_token_success; try done; try lia.
  - simpl. rewrite H200. by case_decide.
  - rewrite dict_get_project, decide_True; [done | apply auth_response_declares; tauto].
  - rewrite dict_get_project, decide_True; [done | apply auth_response_declares; tauto].
  - rewrite dict_get_project, decide_True; [done | apply auth_response_declares; tauto].
Qed.

End Properties.

(** * Sample runs of the properties *)

Lemma answering_answers r : answers (answering r) r.
Proof. by intros q. Qed.

Lemma refresh_token_without_auth_data_witness :
  refresh_token sample_str sample_int "client" (answering (token_response 200))
  = (Raise (CookidooConfigException "No auth data available, please log in first"),
     answering (token_response 200))
  ∧ wire (refresh_token sample_str sample_int "client"
            (answering (token_response 200))).2 = [].
Proof.
  apply (refresh_token_without_auth_data sample_str sample_int "client"
           (answering (token_response 200))).
  reflexivity.
Defined.

Lemma expires_in_remaining_validity_witness :
  __expires_in logged_in = Some 1700003600
  ∧ (expires_in logged_in).1 = Ok 3600
  ∧ (expires_in (set_clock 1700000100 logged_in)).1 = Ok 3500
  ∧ (expires_in (set_clock 1700009999 logged_in)).1 = Ok 0.
Proof.
  assert (He : __expires_in logged_in = Some 1700003600) by (vm_compute; reflexivity).
  destruct (expires_in_remaining_validity sample_str sample_int "client"
              logged_in 1700003600 He) as (Hread & _ & Hgrant).
  split; [exact He|]. split; [|split].
  - apply (Hgrant (answering (token_response 200)) token_fields (JInt 3600) 3600).
    + left. vm_compute. reflexivity.
    + reflexivity.
    + reflexivity.
    + lia.
  - apply (Hread 1700000100).
  - apply (Hread 1700009999).
Defined.

Lemma grant_sets_authorization_header_witness :
  let shouted := (login sample_str sample_int (answering shouted_token_response)).2 in
  _api_headers logged_in !! "AUTHORIZATION" = Some "Bearer AT"
  ∧ _api_headers shouted !! "AUTHORIZATION" = Some "Bearer AT"
  ∧ ∃ q, wire (get_additional_items as_is shouted).2 = wire shouted ++ [q]
         ∧ req_headers q !! "AUTHORIZATION" = Some "Bearer AT".
Proof.
  intros shouted. split.
  - destruct (grant_sets_authorization_header sample_str sample_int "client" as_is
                (answering (token_response 200)) token_fields logged_in)
      as (tt & at_ & Htt & Hat & _ & Hex).
    { left. vm_compute. reflexivity. }
    injection Htt as <-. injection Hat as <-. by apply Hex.
  - destruct (grant_sets_authorization_header sample_str sample_int "client" as_is
                (answering shouted_token_response)
                [("access_token", JStr "AT"); ("refresh_token", JStr "RT");
                 ("token_type", JStr "BEARER"); ("expires_in", JInt 3600)]
                shouted)
      as (tt & at_ & Htt & Hat & Hcap & _).
    { left. vm_compute. reflexivity. }
    injection Htt as <-. injection Hat as <-.
    destruct Hcap as (type & Htype & _ & Hh & q & Hq & _ & Hqh).
    { repeat constructor. }
    assert (type = "Bearer") as ->.
    { apply codes_inj. rewrite Htype. reflexivity. }
    split; [exact Hh|]. exists q. split; [exact Hq | exact Hqh].
Defined.

Lemma failed_grant_keeps_session_state_witness :
  let w := set_session (λ _, Responds garbled_unauthorized) logged_in in
  let w' := (refresh_token sample_str sample_int "client" w).2 in
  _auth_data w' = Some token_fields
  ∧ _api_headers w' = _api_headers logged_in
  ∧ __expires_in w' = Some 1700003600.
Proof.
  intros w w'.
  destruct (failed_grant_keeps_session_state sample_str sample_int "client" w
              (CookidooAuthException "Access token request failed due to authorization failure, please check your email and password or refresh token.")
              w') as (H1 & H2 & H3).
  - right. vm_compute. reflexivity.
  - exact I.
  - rewrite H1, H2, H3. repeat split; vm_compute; reflexivity.
Defined.

Lemma unauthorized_without_description_raises_KeyError_witness :
  (login sample_str sample_int (answering bare_unauthorized)).1
  = Raise (KeyError "error_description")
  ∧ (get_user_info ["username"] (answering bare_unauthorized)).1
    = Raise (KeyError "error_description")
  ∧ (clear_shopping_list (answering bare_unauthorized)).1
    = Raise (KeyError "error_description").
Proof.
  pose proof (unauthorized_without_description_raises_KeyError
                sample_str sample_int "client" ["username"] ["active"]
                as_is as_is as_is as_is
                (answering bare_unauthorized) bare_unauthorized []
                "r1" ["r1"] [] [] []
                (answering_answers _) eq_refl eq_refl eq_refl eq_refl eq_refl) as H.
  split; [apply H|]. split; apply H.
Defined.

(** C2, as stated, fails: a 304 is neither 2xx nor 401, and
    [clear_shopping_list] returns normally on it. *)
Lemma not_modified_is_no_request_error :
  status not_modified = 304
  ∧ (clear_shopping_list (answering not_modified)).1 = Ok ()
  ∧ ¬ ∃ msg cause,
        (clear_shopping_list (answering not_modified)).1
        = Raise (CookidooRequestException msg cause).
Proof.
  split; [reflexivity|]. split; [vm_compute; reflexivity|].
  intros (msg & cause & H). vm_compute in H. discriminate H.
Qed.

Lemma error_status_classification_witness :
  auth_error (login sample_str sample_int (answering bad_request)).1
  ∧ request_error_for 400 (get_user_info ["username"] (answering bad_request)).1
  ∧ request_error_for 400 (clear_shopping_list (answering bad_request)).1.
Proof.
  pose proof (error_status_classification
                sample_str sample_int "client" ["username"] ["active"]
                as_is as_is as_is as_is
                (answering bad_request) bad_request
                "r1" ["r1"] [] [] []
                (answering_answers _)) as H.
  destruct H as (Htoken & Huser & H); [simpl; lia | simpl; lia | done | done |].
  split; [by apply Htoken|]. split; [exact Huser | apply H].
Defined.

(** C5, as stated, fails: a token body without the declared field
    [refresh_token] is projected and stored, and [login] returns. *)
Lemma missing_field_is_no_parse_error :
  "refresh_token" ∈ CookidooAuthResponse_annotations
  ∧ (login sample_str sample_int (answering short_token_response)).1
    = Ok [("access_token", JStr "AT"); ("token_type", JStr "bearer");
          ("expires_in", JInt 3600)]
  ∧ ¬ parse_error (login sample_str sample_int (answering short_token_response)).1.
Proof.
  split; [apply auth_response_declares; tauto|].
  split; [vm_compute; reflexivity|].
  intros (msg & cause & H). vm_compute in H. discriminate H.
Qed.

Lemma allowlist_projection_witness :
  (login sample_str sample_int (answering (token_response 200))).1 = Ok token_fields
  ∧ dict_get "scope" (project CookidooAuthResponse_annotations
                        (("scope", JStr "all") :: token_fields)) = None.
Proof.
  destruct (allowlist_projection sample_str sample_int ["username"]
              (answering (token_response 200)) (token_response 200)
              (("scope", JStr "all") :: token_fields)
              (answering_answers _)) as (Hget & _ & _ & Hlogin & _).
  { simpl. lia. }
  split.
  - apply (Hlogin "bearer" (JStr "AT") (JInt 3600) 3600); reflexivity.
  - rewrite Hget. reflexivity.
Defined.

(** C6, as stated, fails: no element of this array has [active] true, and
    the result is an error, not [None]. *)
Lemma activeless_subscription_is_an_error :
  body_json activeless_subscriptions_response
  = JsonValue (JArr [JObj [("type", JStr "REGULAR")]])
  ∧ py_getitem (JObj [("type", JStr "REGULAR")]) "active" = Raise (KeyError "active")
  ∧ (get_active_subscription ["active"; "type"]
       (answering activeless_subscriptions_response)).1
    = Raise (CookidooParseException
               "Loading active subscription failed during parsing of request response."
               (KeyError "active"))
  ∧ (get_active_subscription ["active"; "type"]
       (answering activeless_subscriptions_response)).1 ≠ Ok None.
Proof.
  split; [reflexivity|]. split; [reflexivity|].
  split; [vm_compute; reflexivity|].
  intros H. vm_compute in H. discriminate H.
Qed.

Lemma get_active_subscription_first_active_witness :
  (get_active_subscription ["active"; "type"] (answering subscriptions_response)).1
  = Ok (Some [("active", JBool true); ("type", JStr "REGULAR")]).
Proof.
  destruct (get_active_subscription_first_active ["active"; "type"]
              (answering subscriptions_response) subscriptions_response
              [JObj (subscription "TRIAL" false);
               JObj (subscription "REGULAR" true);
               JObj (subscription "LATER" true)]
              (answering_answers _)) as [Hfound _].
  { simpl. lia. }
  { reflexivity. }
  apply (Hfound [JObj (subscription "TRIAL" false)] (subscription "REGULAR" true)
           [JObj (subscription "LATER" true)] (JBool true)).
  - reflexivity.
  - constructor; [|constructor]. exists (JBool false). split; reflexivity.
  - reflexivity.
  - reflexivity.
Defined.

Lemma get_ingredient_items_flattens_witness :
  (get_ingredient_items as_is (answering ingredients_response)).1
  = Ok [group "a1"; group "a2"; group "b1"; group "b2"]
  ∧ length [group "a1"; group "a2"; group "b1"; group "b2"] = (2 * 2)%nat.
Proof.
  destruct (get_ingredient_items_flattens as_is
              (answering ingredients_response) ingredients_response
              [("recipes", JArr [recipe [group "a1"; group "a2"];
                                 recipe [group "b1"; group "b2"]])]
              [recipe [group "a1"; group "a2"]; recipe [group "b1"; group "b2"]]
              [[group "a1"; group "a2"]; [group "b1"; group "b2"]]
              [group "a1"; group "a2"; group "b1"; group "b2"]
              (answering_answers _)) as (Hres & _ & Hlen).
  { simpl. lia. }
  { reflexivity. }
  { reflexivity. }
  { repeat constructor. }
  { reflexivity. }
  split; [exact Hres|].
  apply (Hlen 2%nat). repeat constructor.
Defined.

Lemma token_body_logged_on_accepted_grant_witness :
  (login sample_str sample_int (answering (token_response 201))).1 = Ok token_fields
  ∧ LogDebug "Response from %s [%s]: %s"
      [ArgUrl TOKEN_ENDPOINT; ArgStatus 201; ArgText "TOKEN-BODY"]
    ∈ log (login sample_str sample_int (answering (token_response 201))).2.
Proof.
  destruct (token_body_logged_on_accepted_grant sample_str sample_int
              (answering (token_response 201)) (token_response 201)
              (("scope", JStr "all") :: token_fields)
              "bearer" (JStr "AT") (JInt 3600) 3600
              (answering_answers _)) as (Hres & _ & Hlog);
    [simpl; lia | reflexivity..|].
  split; [exact Hres | exact Hlog].
Defined.

Lemma transport_failure_is_request_error_witness :
  request_error_from TimeoutError
    (login sample_str sample_int (unreachable RaisesTimeout)).1
  ∧ request_error_from TimeoutError
      (clear_shopping_list (unreachable RaisesTimeout)).1.
Proof.
  destruct (transport_failure_is_request_error sample_str sample_int "client"
              ["username"] ["active"] as_is as_is as_is as_is
              (unreachable RaisesTimeout) RaisesTimeout TimeoutError
              "r1" ["r1"] [] [] [])
    as (Hlogin & _ & Hapi); [done | reflexivity | reflexivity | reflexivity |].
  split; [exact Hlogin | apply Hapi].
Defined.

Lemma unauthorized_is_auth_error_witness :
  auth_error (login sample_str sample_int (answering described_unauthorized)).1
  ∧ auth_error (get_user_info ["username"] (answering described_unauthorized)).1.
Proof.
  destruct (unauthorized_is_auth_error sample_str sample_int "client"
              ["username"] ["active"] as_is as_is as_is as_is
              (answering described_unauthorized) described_unauthorized
              "r1" ["r1"] [] [] [] (answering_answers _))
    as (Hlogin & _ & Hapi).
  { split; [reflexivity|]. simpl. by eexists. }
  { reflexivity. }
  { reflexivity. }
  split; [exact Hlogin | apply Hapi].
Defined.

Lemma one_request_per_call_witness :
  wire (login sample_str sample_int (answering (garbled 500))).2
  = [mkRequest POST TOKEN_ENDPOINT ∅
       (FormData [("grant_type", JStr "password");
                  ("username", JStr "cook@example.org");
                  ("password", JStr "secret")])]
  ∧ ∃ q, wire (get_user_info ["username"] (answering (garbled 500))).2 = [q]
         ∧ req_headers q = ∅.
Proof.
  destruct (one_request_per_call sample_str sample_int "client"
              ["username"] ["active"] as_is as_is as_is as_is
              (answering (garbled 500)) "r1" ["r1"] [] [] [])
    as (Hlogin & _ & Hapi); [reflexivity | reflexivity |].
  split; [exact Hlogin | apply Hapi].
Defined.

Lemma header_in_sync_with_auth_data_witness :
  in_sync sample_str
    (refresh_token sample_str sample_int "client"
       (set_session (λ _, Responds timeless_token_response) logged_in)).2.
Proof.
  apply (header_in_sync_with_auth_data sample_str sample_int "client"
           ["username"] ["active"] as_is as_is as_is as_is
           (set_session (λ _, Responds timeless_token_response) logged_in)
           "r1" ["r1"] []).
  vm_compute. split; [by eexists | reflexivity].
Defined.

Lemma refresh_token_uses_granted_data_witness :
  auth_data logged_in = (Ok (Some token_fields), logged_in)
  ∧ wire (refresh_token sample_str sample_int "client" logged_in).2
    = wire logged_in
      ++ [mkRequest POST TOKEN_ENDPOINT ∅
            (FormData [("grant_type", JStr "refresh_token");
                       ("refresh_token", JStr "RT");
                       ("client_id", JStr "client")])].
Proof.
  destruct (refresh_token_uses_granted_data sample_str sample_int "client"
              (answering (token_response 200)) token_fields logged_in)
    as (Hread & Hsend & _).
  { left. vm_compute. reflexivity. }
  split; [exact Hread|]. by apply Hsend.
Defined.

Lemma grant_without_expires_in_witness :
  (login sample_str sample_int (answering timeless_token_response)).1
  = Raise (KeyError "expires_in")
  ∧ _auth_data (login sample_str sample_int (answering timeless_token_response)).2
    = Some [("access_token", JStr "AT"); ("token_type", JStr "bearer")]
  ∧ __expires_in (login sample_str sample_int (answering timeless_token_response)).2
    = None.
Proof.
  destruct (grant_without_expires_in sample_str sample_int
              (answering timeless_token_response) timeless_token_response
              [("access_token", JStr "AT"); ("token_type", JStr "bearer")]
              "bearer" (JStr "AT") (answering_answers _))
    as (Hres & Hheld & _ & Hexp); [simpl; lia | reflexivity..|].
  split; [exact Hres|]. split; [exact Hheld | exact Hexp].
Defined.

Lemma removals_accept_any_body_witness :
  (clear_shopping_list (answering (garbled 204))).1 = Ok ()
  ∧ log (clear_shopping_list (answering (garbled 204))).2
    = [LogDebug "Response from %s [%s]: %s"
         [ArgUrl INGREDIENT_ITEMS_PATH; ArgStatus 204; ArgText "{"]]
  ∧ wire (clear_shopping_list (answering (garbled 204))).2
    = [mkRequest DELETE INGREDIENT_ITEMS_PATH ∅ NoBody].
Proof.
  destruct (removals_accept_any_body (answering (garbled 204)) (garbled 204) ["a1"]
              (answering_answers _)) as (_ & _ & Hclear); [simpl; lia|].
  rewrite Hclear. repeat split.
Defined.

Lemma undecodable_body_classification_witness :
  parse_error (get_user_info ["username"] (answering (garbled 200))).1
  ∧ request_error_from (ClientError ContentTypeError)
      (get_user_info ["username"] (answering (html_page 200))).1.
Proof.
  split.
  - destruct (undecodable_body_classification sample_str sample_int
                ["username"] ["active"] as_is as_is as_is as_is
                (answering (garbled 200)) (garbled 200)
                "r1" ["r1"] [] [] [] (answering_answers _))
      as [Hparse _]; [simpl; lia | reflexivity | reflexivity |].
    apply Hparse. reflexivity.
  - destruct (undecodable_body_classification sample_str sample_int
                ["username"] ["active"] as_is as_is as_is as_is
                (answering (html_page 200)) (html_page 200)
                "r1" ["r1"] [] [] [] (answering_answers _))
      as [_ Hreq]; [simpl; lia | reflexivity | reflexivity |].
    apply Hreq. reflexivity.
Defined.

Lemma grant_on_non_object_body_witness :
  (login sample_str sample_int (answering array_token_response)).1
  = Raise AttributeError.
Proof.
  apply (grant_on_non_object_body sample_str sample_int
           (answering array_token_response) array_token_response (JArr [])
           (answering_answers _)); [simpl; lia | reflexivity | done].
Defined.

Lemma subscription_without_active_is_parse_error_witness :
  parse_error
    (get_active_subscription ["active"; "type"]
       (answering broken_subscriptions_response)).1.
Proof.
  apply (subscription_without_active_is_parse_error ["active"; "type"]
           (answering broken_subscriptions_response) broken_subscriptions_response
           [JObj (subscription "TRIAL" false)] [("type", JStr "REGULAR")]
           [JObj (subscription "LATER" true)] (answering_answers _)).
  - simpl. lia.
  - reflexivity.
  - constructor; [|constructor]. exists (JBool false). split; reflexivity.
  - reflexivity.
Defined.

Lemma add_ingredient_items_flattens_data_witness :
  (add_ingredient_items_for_recipes as_is ["r1"; "r2"]
     (answering (data_response [recipe [group "a1"; group "a2"];
                                recipe [group "b1"]]))).1
  = Ok [group "a1"; group "a2"; group "b1"].
Proof.
  apply (add_ingredient_items_flattens_data as_is
           (answering (data_response [recipe [group "a1"; group "a2"];
                                      recipe [group "b1"]]))
           (data_response [recipe [group "a1"; group "a2"]; recipe [group "b1"]])
           ["r1"; "r2"]
           [("data", JArr [recipe [group "a1"; group "a2"]; recipe [group "b1"]])]
           [recipe [group "a1"; group "a2"]; recipe [group "b1"]]
           [[group "a1"; group "a2"]; [group "b1"]]
           [group "a1"; group "a2"; group "b1"]
           (answering_answers _)).
  - simpl. lia.
  - reflexivity.
  - reflexivity.
  - repeat constructor.
  - reflexivity.
Defined.

Lemma edit_ingredient_items_ownership_maps_data_witness :
  (edit_ingredient_items_ownership as_is [owned_item "i1"]
     (answering (data_response [recipe [group "a1"; group "a2"]]))).1
  = Ok [recipe [group "a1"; group "a2"]]
  ∧ wire (edit_ingredient_items_ownership as_is [owned_item "i1"]
            (answering (data_response [recipe [group "a1"; group "a2"]]))).2
    = [mkRequest POST EDIT_OWNERSHIP_INGREDIENT_ITEMS_PATH ∅
         (JsonBody (JObj [("ingredients",
                           JArr [JObj [("id", JStr "i1");
                                       ("isOwned", JBool true);
                                       ("ownedTimestamp", JInt 1700000000)]])]))].
Proof.
  destruct (edit_ingredient_items_ownership_maps_data as_is
              (answering (data_response [recipe [group "a1"; group "a2"]]))
              (data_response [recipe [group "a1"; group "a2"]])
              [owned_item "i1"]
              [JObj [("id", JStr "i1"); ("isOwned", JBool true);
                     ("ownedTimestamp", JInt 1700000000)]]
              [("data", JArr [recipe [group "a1"; group "a2"]])]
              [recipe [group "a1"; group "a2"]]
              [recipe [group "a1"; group "a2"]]
              (answering_answers _))
    as (Hres & _ & _ & Hwire); [simpl; lia | reflexivity..|].
  split; [exact Hres | exact Hwire].
Defined.



Lemma token_body_not_logged_on_200_grant_witness :
  log (login sample_str sample_int (answering (token_response 200))).2
  = [LogDebug "Response from %s [%s]: %s"
       [ArgUrl TOKEN_ENDPOINT; ArgStatus 200; ArgText EmptyString]].
Proof.
  apply (token_body_not_logged_on_200_grant sample_str sample_int
           (answering (token_response 200)) (token_response 200)
           (("scope", JStr "all") :: token_fields)
           "bearer" (JStr "AT") (JInt 3600) 3600 (answering_answers _));
    reflexivity.
Defined.
